(** * FMP-Vision: the enrichment and rewriting pipeline of [fmp-openai.py]

    A shallow embedding of [src/fmp-openai.py] and the properties of its
    pipeline: the request executor [send_request], the profile enricher
    [update_with_profile], the two rewriters and the orchestrator [main].

    Modelling conventions.
    - Parsed JSON is the type [value]; JSON numbers are integers here
      (floating point numbers are outside the model).
    - A Python [str] is a Rocq [string], one character per code point, for
      the code points below 256.  [strip] is Python's on all of them.
      [lower] and [upper] are Python's on the code points below 128 and
      leave the others as they are; a result of theirs equals one of the
      ASCII literals of the source exactly when Python's does.
    - A Python [dict] with string keys is an association list in insertion
      order, as [dict] iterates.
    - Exceptions are the type [exn]; a computation is a function from the
      [world] (the HTTP calls issued so far and the two files written) to a
      result and the next world.
    - The network is an oracle [network]: the outcome of the [n]-th call of
      the run, given the request.  The order in which the concurrent profile
      fetches complete is a list of task indices.  The order in which they
      start is not fixed by [asyncio.as_completed], which goes through
      [set(tasks)]: the log of calls lists them in key order, a choice of
      the model.
    - Standard output (the [print] calls) is not modelled. *)

From Stdlib Require Import List String Ascii ZArith Bool Lia Permutation.
From Stdlib Require Import DecimalString.
Import ListNotations.
Local Open Scope string_scope.
Local Open Scope Z_scope.

(** ** Python strings *)

Module PyStr.

Definition is_upper_letter (c : ascii) : bool :=
  let n := nat_of_ascii c in ((65 <=? n) && (n <=? 90))%nat.

Definition is_lower_letter (c : ascii) : bool :=
  let n := nat_of_ascii c in ((97 <=? n) && (n <=? 122))%nat.

Definition lower_char (c : ascii) : ascii :=
  if is_upper_letter c then ascii_of_nat (nat_of_ascii c + 32) else c.

Definition upper_char (c : ascii) : ascii :=
  if is_lower_letter c then ascii_of_nat (nat_of_ascii c - 32) else c.

(** [str.lower()] *)
Fixpoint lower (s : string) : string :=
  match s with
  | EmptyString => EmptyString
  | String c r => String (lower_char c) (lower r)
  end.

(** [str.upper()] *)
Fixpoint upper (s : string) : string :=
  match s with
  | EmptyString => EmptyString
  | String c r => String (upper_char c) (upper r)
  end.

(** The characters below 256 that [str.strip()] removes: tab, line feed,
    vertical tab, form feed, carriage return, the four separators 28..31,
    the space, the next-line control 133 and the no-break space 160. *)
Definition is_space (c : ascii) : bool :=
  let n := nat_of_ascii c in
  (((9 <=? n) && (n <=? 13)) || ((28 <=? n) && (n <=? 32))
   || (n =? 133) || (n =? 160))%nat.

Fixpoint lstrip (s : string) : string :=
  match s with
  | EmptyString => EmptyString
  | String c r => if is_space c then lstrip r else s
  end.

Fixpoint rstrip (s : string) : string :=
  match s with
  | EmptyString => EmptyString
  | String c r =>
      match rstrip r with
      | EmptyString => if is_space c then EmptyString else String c EmptyString
      | r' => String c r'
      end
  end.

(** [str.strip()] *)
Definition strip (s : string) : string := rstrip (lstrip s).

(** The one-character strings a [str] iterates over. *)
Fixpoint chars (s : string) : list string :=
  match s with
  | EmptyString => []
  | String c r => String c EmptyString :: chars r
  end.

End PyStr.

(** ** Values, dictionaries and exceptions *)

(** Parsed JSON, which is also what the Python code passes around: [VNone] is
    both JSON [null] and the failure value [None] of the source. *)
#[warnings="-register-all"]
Inductive value : Type :=
| VNone
| VBool (b : bool)
| VInt (n : Z)
| VStr (s : string)
| VList (l : list value)
| VDict (d : list (string * value)).

(** A [dict] with string keys, in insertion order. *)
Definition dict : Type := list (string * value).

Inductive value_error : Type :=
| UnsupportedMethod (m : string)   (* send_request, line 36 *)
| InvalidRewriteApi                (* main, line 250 *)
| FieldsNotInFieldnames.           (* csv.DictWriter.writerow *)

Inductive exn : Type :=
| KeyError
| IndexError
| TypeError
| AttributeError
| ValueError (e : value_error)
| RequestException                 (* requests.get, line 59 *)
| ClientError                      (* aiohttp: connection failure, timeout *)
| JSONDecodeError.                 (* response.json(), lines 43 and 60 *)

Inductive res (A : Type) : Type :=
| Ret (a : A)
| Raise (e : exn).
Arguments Ret {A} a.
Arguments Raise {A} e.

Module Dict.

Fixpoint get (d : dict) (k : string) : option value :=
  match d with
  | [] => None
  | (k', v) :: r => if String.eqb k' k then Some v else get r k
  end.

(** [d[k] = v]: an existing key keeps its place, a new key goes last. *)
Fixpoint set (d : dict) (k : string) (v : value) : dict :=
  match d with
  | [] => [(k, v)]
  | (k', v') :: r =>
      if String.eqb k' k then (k', v) :: r else (k', v') :: set r k v
  end.

(** [d.update(u)] *)
Definition update (d u : dict) : dict :=
  fold_left (fun acc kv => set acc (fst kv) (snd kv)) u d.

Definition keys (d : dict) : list string := map fst d.

End Dict.

(** [v[k]] for a string [k]: only a dict takes a string subscript. *)
Definition getitem_str (v : value) (k : string) : res value :=
  match v with
  | VDict d => match Dict.get d k with Some x => Ret x | None => Raise KeyError end
  | _ => Raise TypeError
  end.

(** [v[0]] *)
Definition getitem_0 (v : value) : res value :=
  match v with
  | VList [] => Raise IndexError
  | VList (x :: _) => Ret x
  | VStr EmptyString => Raise IndexError
  | VStr (String c _) => Ret (VStr (String c EmptyString))
  | VDict _ => Raise KeyError
  | VNone | VBool _ | VInt _ => Raise TypeError
  end.

(** [for item in v] *)
Definition py_iter (v : value) : res (list value) :=
  match v with
  | VList l => Ret l
  | VDict d => Ret (map VStr (Dict.keys d))
  | VStr s => Ret (map VStr (PyStr.chars s))
  | VNone | VBool _ | VInt _ => Raise TypeError
  end.

(** [v.lower()]: only a [str] has the method. *)
Definition py_lower (v : value) : res string :=
  match v with
  | VStr s => Ret (PyStr.lower s)
  | _ => Raise AttributeError
  end.

(** [v.strip()] *)
Definition py_strip (v : value) : res string :=
  match v with
  | VStr s => Ret (PyStr.strip s)
  | _ => Raise AttributeError
  end.

(** [v in [s1, s2, ...]] for string literals: [==] against a [str] holds of
    the equal [str] only. *)
Definition eq_str (v : value) (s : string) : bool :=
  match v with
  | VStr t => String.eqb t s
  | _ => false
  end.

Definition in_strs (v : value) (l : list string) : bool :=
  existsb (eq_str v) l.

(** [v + s] for a [str] [s]: defined for a [str] on the left only. *)
Definition add_str (v : value) (s : string) : res string :=
  match v with
  | VStr t => Ret (t ++ s)
  | _ => Raise TypeError
  end.

(** ** Hashable keys *)

(** The values that can be keys of a [dict]: lists and dicts are unhashable. *)
Inductive hkey : Type :=
| HNone
| HBool (b : bool)
| HInt (n : Z)
| HStr (s : string).

Definition to_key (v : value) : res hkey :=
  match v with
  | VNone => Ret HNone
  | VBool b => Ret (HBool b)
  | VInt n => Ret (HInt n)
  | VStr s => Ret (HStr s)
  | VList _ | VDict _ => Raise TypeError
  end.

(** Key equality as [dict] has it: [True == 1] and [False == 0]. *)
Definition key_eqb (a b : hkey) : bool :=
  match a, b with
  | HNone, HNone => true
  | HStr s, HStr t => String.eqb s t
  | HBool x, HBool y => Bool.eqb x y
  | HBool x, HInt n | HInt n, HBool x => n =? (if x then 1 else 0)
  | HInt n, HInt m => n =? m
  | _, _ => false
  end.

(** [f"{k}"] *)
Definition format_key (k : hkey) : string :=
  match k with
  | HNone => "None"
  | HBool true => "True"
  | HBool false => "False"
  | HInt n => NilZero.string_of_int (Z.to_int n)
  | HStr s => s
  end.

(** ** The world: HTTP calls and files *)

Inductive http_method : Type := GET | POST.

Record request : Type := mkRequest {
  rq_method : http_method;
  rq_url : string;
  rq_headers : list (string * string);
  rq_json : value
}.

(** What the remote end does with one call.  [Responded st None] is a response
    whose body does not parse as JSON. *)
Inductive http_outcome : Type :=
| Responded (status : Z) (body : option value)
| TransportFailed.

(** The outcome of the [n]-th call of the run. *)
Definition network : Type := nat -> request -> http_outcome.

Record world : Type := mkWorld {
  calls : list request;                      (* issued so far, oldest first *)
  list_json : option value;                  (* list.json, once written *)
  output_csv : option (list (list value))    (* output.csv, once opened *)
}.

Definition world0 : world := mkWorld [] None None.

Definition M (A : Type) : Type := world -> res A * world.

Definition ret {A} (a : A) : M A := fun w => (Ret a, w).
Definition raise {A} (e : exn) : M A := fun w => (Raise e, w).
Definition bind {A B} (m : M A) (f : A -> M B) : M B :=
  fun w => match m w with
           | (Ret a, w') => f a w'
           | (Raise e, w') => (Raise e, w')
           end.
Definition lift {A} (r : res A) : M A := fun w => (r, w).

(** [try: m except Exception: h] *)
Definition try_except {A} (m : M A) (h : M A) : M A :=
  fun w => match m w with
           | (Ret a, w') => (Ret a, w')
           | (Raise _, w') => h w'
           end.

Declare Scope py_scope.
Delimit Scope py_scope with py.
Notation "x <- m ;; k" := (bind m (fun x => k))
  (at level 100, m at next level, right associativity) : py_scope.
Notation "m ;;; k" := (bind m (fun _ => k))
  (at level 100, right associativity) : py_scope.
Local Open Scope py_scope.

Definition rbind {A B} (r : res A) (f : A -> res B) : res B :=
  match r with Ret a => f a | Raise e => Raise e end.

Fixpoint mapM {A B} (f : A -> M B) (l : list A) : M (list B) :=
  match l with
  | [] => ret []
  | a :: r => b <- f a ;; bs <- mapM f r ;; ret (b :: bs)
  end.

(** Issue one call: the network answers, the call is logged. *)
Definition http_call (net : network) (rq : request) : M http_outcome :=
  fun w => (Ret (net (List.length (calls w)) rq),
            mkWorld (calls w ++ [rq])%list (list_json w) (output_csv w)).

Definition set_list_json (v : value) : M unit :=
  fun w => (Ret tt, mkWorld (calls w) (Some v) (output_csv w)).

(** [open('output.csv', 'w')] creates or truncates the file. *)
Definition open_output : M unit :=
  fun w => (Ret tt, mkWorld (calls w) (list_json w) (Some [])).

(** One more line of output.csv.  The cells are kept as values: the text the
    csv module makes of them is not modelled. *)
Definition write_line (cells : list value) : M unit :=
  fun w => (Ret tt,
            mkWorld (calls w) (list_json w)
                    (match output_csv w with
                     | Some ls => Some (ls ++ [cells])%list
                     | None => None
                     end)).

(** ** The record collection: [data_map] *)

Module DataMap.

Definition t : Type := list (hkey * dict).

Fixpoint get (m : t) (k : hkey) : option dict :=
  match m with
  | [] => None
  | (k', v) :: r => if key_eqb k' k then Some v else get r k
  end.

(** [m[k] = v]: an existing key keeps its place and its first key object. *)
Fixpoint set (m : t) (k : hkey) (v : dict) : t :=
  match m with
  | [] => [(k, v)]
  | (k', v') :: r =>
      if key_eqb k' k then (k', v) :: r else (k', v') :: set r k v
  end.

Definition keys (m : t) : list hkey := map fst m.
Definition values (m : t) : list dict := map snd m.

End DataMap.

(** ** Configuration (lines 8-14) *)

Record config : Type := mkConfig {
  api_key : string;
  access_token : string;
  user_id : string;
  bot_id : string;
  rewrite_api : string
}.

Definition nl : string := String (ascii_of_nat 10) EmptyString.

Definition profile_fields : list string :=
  ["currency"; "industry"; "sector"; "country"; "image"; "description"].

(** The dict literal of lines 116-123: each entry reads
    [profile_data[0][field]], in order. *)
Fixpoint profile_literal (profile_data : value) (fields : list string)
  : res dict :=
  match fields with
  | [] => Ret []
  | f :: r =>
      rbind (getitem_0 profile_data) (fun first =>
      rbind (getitem_str first f) (fun x =>
      rbind (profile_literal profile_data r) (fun rest =>
      Ret ((f, x) :: rest))))
  end.

(** The body of the loop of lines 109-123, for one completed task. *)
Definition merge_profile (data_map : DataMap.t) (c : value * hkey)
  : res DataMap.t :=
  let (profile_data, symbol) := c in
  match profile_data with
  | VNone => Ret data_map
  | _ =>
      match DataMap.get data_map symbol with
      | None => Raise KeyError
      | Some item =>
          rbind (profile_literal profile_data profile_fields) (fun u =>
          Ret (DataMap.set data_map symbol (Dict.update item u)))
      end
  end.

Fixpoint merge_all (data_map : DataMap.t) (cs : list (value * hkey))
  : res DataMap.t :=
  match cs with
  | [] => Ret data_map
  | c :: r => rbind (merge_profile data_map c) (fun m => merge_all m r)
  end.

(** Line 101: [{item['symbol']: item for item in filtered_data}]. *)
Fixpoint build_data_map (acc : DataMap.t) (filtered_data : list dict)
  : res DataMap.t :=
  match filtered_data with
  | [] => Ret acc
  | item :: r =>
      rbind (getitem_str (VDict item) "symbol") (fun s =>
      rbind (to_key s) (fun k =>
      build_data_map (DataMap.set acc k item) r))
  end.

(** [asyncio.as_completed(tasks)]: the tasks in the order they complete,
    [order] listing task indices. *)
Definition as_completed {A} (tasks : list A) (order : list nat) : list A :=
  flat_map (fun i => match nth_error tasks i with
                     | Some t => [t]
                     | None => []
                     end) order.

(** ** The program *)

Section Program.

Variable cfg : config.
Variable net : network.

(** Lines 16-50.  [session.get] or [session.post] is chosen before the
    [try]; the call, the status test and [response.json()] are inside it. *)
Definition send_request (method : string) (url : string)
    (headers : list (string * string)) (json_data : value) : M value :=
  func <- (if String.eqb (PyStr.upper method) "GET" then ret GET
           else if String.eqb (PyStr.upper method) "POST" then ret POST
           else raise (ValueError (UnsupportedMethod method))) ;;
  try_except
    (o <- http_call net (mkRequest func url headers json_data) ;;
     match o with
     | Responded status body =>
         if status =? 200
         then match body with
              | Some v => ret v
              | None => raise JSONDecodeError
              end
         else ret VNone
     | TransportFailed => raise ClientError
     end)
    (ret VNone).

Definition list_url : string :=
  "https://fmpcloud.io/api/v3/available-traded/list?apikey=" ++ api_key cfg.

(** Lines 52-65: nothing is caught here, and the status is not looked at. *)
Definition get_available_traded : M unit :=
  o <- http_call net (mkRequest GET list_url [] VNone) ;;
  match o with
  | TransportFailed => raise RequestException
  | Responded _ None => raise JSONDecodeError
  | Responded _ (Some data) => set_list_json data
  end.

(** Lines 67-86. *)
Definition get_profile_data (api_url akey : string) (symbol : hkey)
  : M (value * hkey) :=
  let url := api_url ++ format_key symbol ++ "?apikey=" ++ akey in
  profile_data <- send_request "GET" url [] VNone ;;
  ret (profile_data, symbol).

(** Lines 88-126.  Every task is started before the first completion is
    looked at; [order] is the order in which the tasks complete.  The tasks
    are logged in key order; the order in which they really start is
    arbitrary. *)
Definition update_with_profile (filtered_data : list dict)
    (api_url akey : string) (order : list nat) : M (list dict) :=
  data_map <- lift (build_data_map [] filtered_data) ;;
  tasks <- mapM (get_profile_data api_url akey) (DataMap.keys data_map) ;;
  data_map <- lift (merge_all data_map (as_completed tasks order)) ;;
  ret (DataMap.values data_map).

Definition bearer (token : string) : list (string * string) :=
  [("Authorization", "Bearer " ++ token); ("Content-Type", "application/json")].

Definition coze_url : string := "https://api.coze.com/open_api/v2/chat".

(** Lines 129-174. *)
Definition rewrite_with_coze (atoken uid bid text : string) : M value :=
  let headers := bearer atoken in
  let json_data := VDict [("conversation_id", VStr "123");
                          ("bot_id", VStr bid);
                          ("user", VStr uid);
                          ("query", VStr text);
                          ("stream", VBool false)] in
  res_json <- send_request "POST" coze_url headers json_data ;;
  try_except
    (match res_json with
     | VNone => ret VNone
     | _ => lift (rbind (getitem_str res_json "messages") (fun ms =>
                  rbind (getitem_0 ms) (fun m =>
                  getitem_str m "content")))
     end)
    (ret VNone).

Definition openai_url : string :=
  "https://api.openai.com/v1/engines/davinci-codex/completions".

Definition openai_instruction : string :=
  "Rewrite the following text in a maximum of 50 words:" ++ nl.

(** Lines 177-217. *)
Definition rewrite_with_openai (akey text : string) : M value :=
  let headers := bearer akey in
  let data := VDict [("prompt", VStr (openai_instruction ++ text));
                     ("max_tokens", VInt 50)] in
  response_data <- send_request "POST" openai_url headers data ;;
  try_except
    (match response_data with
     | VNone => ret VNone
     | _ => lift (rbind (getitem_str response_data "choices") (fun cs =>
                  rbind (getitem_0 cs) (fun c =>
                  rbind (getitem_str c "text") (fun t =>
                  rbind (py_strip t) (fun s =>
                  Ret (VStr s))))))
     end)
    (ret VNone).

Definition main_prompt : string :=
  "Can you rewrite the following text with a maximum of 50 words?".

(** Lines 228-229, for one item: [and] does not read [exchangeShortName]
    when the type test fails. *)
Definition is_candidate (item : value) : res bool :=
  rbind (getitem_str item "type") (fun t =>
  rbind (py_lower t) (fun l =>
  if in_strs (VStr l) ["stock"; "etf"]
  then rbind (getitem_str item "exchangeShortName") (fun e =>
       Ret (in_strs e ["AMEX"; "NASDAQ"]))
  else Ret false)).

(** An item that answered [item['type']] is a dict. *)
Definition as_dict (item : value) : res dict :=
  match item with
  | VDict d => Ret d
  | _ => Raise TypeError
  end.

Fixpoint filter_items (items : list value) : res (list dict) :=
  match items with
  | [] => Ret []
  | item :: r =>
      rbind (is_candidate item) (fun keep =>
      rbind (as_dict item) (fun d =>
      rbind (filter_items r) (fun rest =>
      Ret (if keep then d :: rest else rest))))
  end.

(** Lines 228-229: the list comprehension over the loaded file. *)
Definition filter_candidates (data : value) : res (list dict) :=
  rbind (py_iter data) filter_items.

(** Lines 240-254: the body of the rewriting loop, for one item. *)
Definition rewrite_item (item : dict) : M dict :=
  description <- lift (getitem_str (VDict item) "description") ;;
  full_text <- lift (add_str description main_prompt) ;;
  rewritten_description <-
    (if String.eqb (PyStr.lower (rewrite_api cfg)) "openai"
     then rewrite_with_openai (api_key cfg) full_text
     else if String.eqb (PyStr.lower (rewrite_api cfg)) "coze"
     then rewrite_with_coze (access_token cfg) (user_id cfg) (bot_id cfg)
                            full_text
     else raise (ValueError InvalidRewriteApi)) ;;
  match rewritten_description with
  | VNone => ret item
  | v => ret (Dict.set item "description-new" v)
  end.

(** [csv.DictWriter.writerow]: a key outside [fieldnames] is an error, a
    missing one is written as the empty string. *)
Definition writerow (fieldnames : list string) (row : dict) : M unit :=
  if forallb (fun k => existsb (String.eqb k) fieldnames) (Dict.keys row)
  then write_line (map (fun f => match Dict.get row f with
                                 | Some v => v
                                 | None => VStr ""
                                 end) fieldnames)
  else raise (ValueError FieldsNotInFieldnames).

(** Lines 257-262. *)
Definition write_csv (updated_data : list dict) : M unit :=
  first <- (match updated_data with
            | [] => raise IndexError
            | r :: _ => ret r
            end) ;;
  let fieldnames := Dict.keys first in
  open_output ;;;
  write_line (map VStr fieldnames) ;;;
  mapM (writerow fieldnames) updated_data ;;;
  ret tt.

Definition profile_url : string := "https://fmpcloud.io/api/v3/profile/".

(** Lines 220-262.  [data] is the parsed content of list-test.json. *)
Definition main (data : value) (order : list nat) : M unit :=
  get_available_traded ;;;
  filtered_data <- lift (filter_candidates data) ;;
  updated_data <- update_with_profile filtered_data profile_url
                                      (api_key cfg) order ;;
  updated_data <- mapM rewrite_item updated_data ;;
  write_csv updated_data.

End Program.

(** ** Vocabulary of the properties *)

(** The world after one more call. *)
Definition log_call (w : world) (rq : request) : world :=
  mkWorld (calls w ++ [rq])%list (list_json w) (output_csv w).

(** What a caller of [send_request] gets for an outcome of the call. *)
Definition executor_answer (o : http_outcome) : value :=
  match o with
  | Responded status (Some v) => if status =? 200 then v else VNone
  | Responded _ None => VNone
  | TransportFailed => VNone
  end.

(** The collection a run returned, if it returned one. *)
Definition returned {A} (r : res A) : option A :=
  match r with
  | Ret a => Some a
  | Raise _ => None
  end.

Fixpoint all_space (s : string) : bool :=
  match s with
  | EmptyString => true
  | String c r => PyStr.is_space c && all_space r
  end.

Definition starts_with_space (s : string) : bool :=
  match s with
  | EmptyString => false
  | String c _ => PyStr.is_space c
  end.

Fixpoint ends_with_space (s : string) : bool :=
  match s with
  | EmptyString => false
  | String c EmptyString => PyStr.is_space c
  | String _ r => ends_with_space r
  end.

(** The request [rewrite_with_openai] is to send for [text]. *)
Definition openai_request (akey text : string) : request :=
  mkRequest POST
    "https://api.openai.com/v1/engines/davinci-codex/completions"
    [("Authorization", "Bearer " ++ akey);
     ("Content-Type", "application/json")]
    (VDict [("prompt",
             VStr ("Rewrite the following text in a maximum of 50 words:"
                   ++ nl ++ text));
            ("max_tokens", VInt 50)]).

(** [response['choices'][0]['text']] *)
Definition choices_0_text (response : value) : res value :=
  rbind (getitem_str response "choices") (fun cs =>
  rbind (getitem_0 cs) (fun c =>
  getitem_str c "text")).

(** ** The candidate filter, as the specification words it *)

Module Spec.

(** Two characters that are equal, or the two cases of one letter. *)
Definition same_letter (a b : ascii) : bool :=
  Ascii.eqb a b
  || (PyStr.is_upper_letter a && Ascii.eqb (PyStr.lower_char a) b)
  || (PyStr.is_upper_letter b && Ascii.eqb (PyStr.lower_char b) a).

(** Equality of strings up to the case of letters. *)
Fixpoint matches_ci (s t : string) : bool :=
  match s, t with
  | EmptyString, EmptyString => true
  | String a r, String b r' => same_letter a b && matches_ci r r'
  | _, _ => false
  end.

(** [type] case-insensitively in {stock, etf} and [exchangeShortName] in
    {AMEX, NASDAQ}. *)
Definition candidate (d : dict) : bool :=
  match Dict.get d "type", Dict.get d "exchangeShortName" with
  | Some (VStr t), Some e =>
      (matches_ci t "stock" || matches_ci t "etf")
      && (eq_str e "AMEX" || eq_str e "NASDAQ")
  | _, _ => false
  end.

End Spec.

(** An instrument object of the bulk list: [type] is a string and
    [exchangeShortName] is there. *)
Definition instrument_ok (d : dict) : bool :=
  match Dict.get d "type", Dict.get d "exchangeShortName" with
  | Some (VStr _), Some _ => true
  | _, _ => false
  end.

Fixpoint no_upper (s : string) : bool :=
  match s with
  | EmptyString => true
  | String c r => negb (PyStr.is_upper_letter c) && no_upper r
  end.

(** ** Vocabulary of the enricher *)

(** The canonical representative of a key: two keys are equal for [dict]
    exactly when their representatives are the same. *)
Definition norm (k : hkey) : hkey :=
  match k with
  | HBool b => HInt (if b then 1 else 0)
  | _ => k
  end.

(** The keys of the collection, up to key equality. *)
Definition kset (m : DataMap.t) : list hkey := map norm (DataMap.keys m).

(** [r] is a record for the symbol [k]. *)
Definition record_for (k : hkey) (r : dict) : bool :=
  match Dict.get r "symbol" with
  | Some s => match to_key s with
              | Ret k' => key_eqb k' k
              | Raise _ => false
              end
  | None => false
  end.

Definition has_record_for (out : list dict) (k : hkey) : Prop :=
  exists r, In r out /\ record_for k r = true.

(** An item whose [symbol] can be a key. *)
Definition hashable_symbol (d : dict) : bool :=
  match Dict.get d "symbol" with
  | Some s => match to_key s with Ret _ => true | Raise _ => false end
  | None => false
  end.

(** A fetch result the merge accepts: a failure, or a body whose first
    element has the six fields. *)
Definition mergeable (profile_data : value) : bool :=
  match profile_data with
  | VNone => true
  | _ => match profile_literal profile_data profile_fields with
         | Ret _ => true
         | Raise _ => false
         end
  end.

(** A network whose every answer is mergeable. *)
Definition benign (net : network) : Prop :=
  forall n rq, mergeable (executor_answer (net n rq)) = true.

(** The call [get_profile_data] issues for a symbol. *)
Definition profile_request (api_url akey : string) (symbol : hkey) : request :=
  mkRequest GET (api_url ++ format_key symbol ++ "?apikey=" ++ akey) [] VNone.

(** The results of the tasks of line 106, the first call being the [n]-th
    of the run. *)
Fixpoint fetch_all (net : network) (api_url akey : string)
    (symbols : list hkey) (n : nat) : list (value * hkey) :=
  match symbols with
  | [] => []
  | k :: r =>
      (executor_answer (net n (profile_request api_url akey k)), k)
      :: fetch_all net api_url akey r (S n)
  end.

(** Completions that are pairwise the same task or about different keys. *)
Definition compatible (cs : list (value * hkey)) : Prop :=
  forall a b, In a cs -> In b cs -> a = b \/ norm (snd a) <> norm (snd b).

(** Every entry of the collection holds a record for its own key. *)
Definition keyed (m : DataMap.t) : Prop :=
  forall k r, In (k, r) m -> record_for k r = true.

(** ** Sample inputs *)

Module Sample.

Definition cfg_openai : config := mkConfig "K" "AT" "U" "B" "openai".
Definition cfg_azure : config := mkConfig "K" "AT" "U" "B" "azure".

(** An item of the bulk list, as the filter keeps it. *)
Definition instrument (symbol : string) : dict :=
  [("symbol", VStr symbol); ("name", VStr "Acme Corp");
   ("type", VStr "stock"); ("exchangeShortName", VStr "NASDAQ")].

(** A profile response body with the six fields. *)
Definition profile : value :=
  VList [VDict [("symbol", VStr "ACME"); ("currency", VStr "USD");
                ("industry", VStr "Widgets"); ("sector", VStr "Industrials");
                ("country", VStr "US"); ("image", VStr "acme.png");
                ("description", VStr "Acme Corp makes widgets.")]].

(** A completion-style response. *)
Definition completion : value :=
  VDict [("choices", VList [VDict [("text", VStr "  Acme makes widgets.  ")]])].

(** Every call succeeds. *)
Definition net_ok : network :=
  fun _ rq =>
    match rq_method rq with
    | GET => Responded 200 (Some profile)
    | POST => Responded 200 (Some completion)
    end.

(** The bulk list is served, every later call is answered 404. *)
Definition net_404 : network :=
  fun n _ =>
    match n with
    | O => Responded 200 (Some (VList []))
    | S _ => Responded 404 None
    end.

(** The bulk list is served, every profile is the empty array. *)
Definition net_empty_profile : network :=
  fun _ _ => Responded 200 (Some (VList [])).

(** The first call is answered 404, every later one with a profile. *)
Definition net_mixed : network :=
  fun n _ =>
    match n with
    | O => Responded 404 None
    | S _ => Responded 200 (Some profile)
    end.

(** Profiles are served; the rewrite that is the fourth call of the run is
    answered 500, every other rewrite succeeds. *)
Definition net_flaky : network :=
  fun n rq =>
    match rq_method rq with
    | GET => Responded 200 (Some profile)
    | POST => if Nat.eqb n 3 then Responded 500 None
              else Responded 200 (Some completion)
    end.

(** list-test.json with one and with two candidates. *)
Definition one_candidate : value := VList [VDict (instrument "ACME")].
Definition two_candidates : value :=
  VList [VDict (instrument "ACME"); VDict (instrument "BOLT")].

End Sample.

(** The configured backend is one of the two the dispatch of lines 245-250
    knows. *)
Definition valid_backend (cfg : config) : bool :=
  String.eqb (PyStr.lower (rewrite_api cfg)) "openai"
  || String.eqb (PyStr.lower (rewrite_api cfg)) "coze".

(** A run from the initial world that ends with the invalid-backend error
    and has issued no HTTP call. *)
Definition aborts_before_any_call (cfg : config) (net : network)
    (data : value) (order : list nat) : Prop :=
  fst (main cfg net data order world0) = Raise (ValueError InvalidRewriteApi)
  /\ calls (snd (main cfg net data order world0)) = [].


(** ** Vocabulary of the further properties *)

(** The bulk list call of [get_available_traded]. *)
Definition bulk_request (cfg : config) : request :=
  mkRequest GET (list_url cfg) [] VNone.

(** The request [rewrite_with_coze] is to send for [text]. *)
Definition coze_request (atoken uid bid text : string) : request :=
  mkRequest POST
    "https://api.coze.com/open_api/v2/chat"
    [("Authorization", "Bearer " ++ atoken);
     ("Content-Type", "application/json")]
    (VDict [("conversation_id", VStr "123");
            ("bot_id", VStr bid);
            ("user", VStr uid);
            ("query", VStr text);
            ("stream", VBool false)]).

(** [response['messages'][0]['content']] *)
Definition messages_0_content (response : value) : res value :=
  rbind (getitem_str response "messages") (fun ms =>
  rbind (getitem_0 ms) (fun m =>
  getitem_str m "content")).

(** The key under which an item enters the collection. *)
Definition symbol_key (d : dict) : res hkey :=
  rbind (getitem_str (VDict d) "symbol") to_key.

(** [profile_data[0][f]] *)
Definition profile_field (profile_data : value) (f : string) : res value :=
  rbind (getitem_0 profile_data) (fun first => getitem_str first f).

(** [r'] has the fields of [r] outside the six profile fields. *)
Definition same_static (r r' : dict) : Prop :=
  forall f, ~ In f profile_fields -> Dict.get r' f = Dict.get r f.

(** The keys of [row] are all columns. *)
Definition row_fits (fieldnames : list string) (row : dict) : bool :=
  forallb (fun k => existsb (String.eqb k) fieldnames) (Dict.keys row).

(** The line written for [row]: a missing column is the empty string. *)
Definition row_cells (fieldnames : list string) (row : dict) : list value :=
  map (fun f => match Dict.get row f with
                | Some v => v
                | None => VStr ""
                end) fieldnames.

(** The world with output.csv holding [lines]. *)
Definition with_output (w : world) (lines : list (list value)) : world :=
  mkWorld (calls w) (list_json w) (Some lines).

(** The files of the world. *)
Definition files (w : world) : option value * option (list (list value)) :=
  (list_json w, output_csv w).

(** ** Strings *)

(** [is_space] holds of twelve code points, those of which Python's
    [str.isspace] holds below 256. *)
Lemma is_space_code_points (c : ascii) :
  PyStr.is_space c
  = existsb (Nat.eqb (nat_of_ascii c))
      [9; 10; 11; 12; 13; 28; 29; 30; 31; 32; 133; 160]%nat.
Proof.
  destruct c as [[] [] [] [] [] [] [] []]; reflexivity.
Qed.

(** The next-line control and the no-break space are stripped too. *)
Lemma strip_latin1_spaces :
  PyStr.strip (String (ascii_of_nat 160) "Acme" ++ String (ascii_of_nat 133) " ")
  = "Acme".
Proof. reflexivity. Qed.

Lemma lstrip_spec (s : string) :
  exists pre, s = pre ++ PyStr.lstrip s /\ all_space pre = true /\
              starts_with_space (PyStr.lstrip s) = false.
Proof.
  induction s as [|c r (pre & E & Hpre & Hst)]; simpl.
  - exists EmptyString. auto.
  - destruct (PyStr.is_space c) eqn:Hc.
    + exists (String c pre). simpl. rewrite Hc, Hpre.
      split; [f_equal; exact E | auto].
    + exists EmptyString. simpl. auto.
Qed.

Lemma rstrip_spec (s : string) :
  exists post, s = PyStr.rstrip s ++ post /\ all_space post = true /\
               ends_with_space (PyStr.rstrip s) = false.
Proof.
  induction s as [|c r (post & E & Hpost & Hend)]; simpl.
  - exists EmptyString. auto.
  - destruct (PyStr.rstrip r) as [|a r'] eqn:Hr.
    + simpl in E. subst r.
      destruct (PyStr.is_space c) eqn:Hc.
      * exists (String c post). simpl. rewrite Hc, Hpost. auto.
      * exists post. simpl. auto.
    + exists post. split; [|split]; auto.
      simpl. f_equal. exact E.
Qed.

Lemma rstrip_keeps_start (s : string) :
  starts_with_space s = false -> starts_with_space (PyStr.rstrip s) = false.
Proof.
  destruct s as [|c r]; simpl; auto.
  intros Hc. destruct (PyStr.rstrip r); simpl; rewrite ?Hc; auto.
Qed.

(** [strip] removes a run of spaces at each end, and nothing else. *)
Lemma strip_spec (s : string) :
  exists pre post,
    s = pre ++ PyStr.strip s ++ post /\
    all_space pre = true /\ all_space post = true /\
    starts_with_space (PyStr.strip s) = false /\
    ends_with_space (PyStr.strip s) = false.
Proof.
  unfold PyStr.strip.
  destruct (lstrip_spec s) as (pre & E1 & Hpre & Hst).
  destruct (rstrip_spec (PyStr.lstrip s)) as (post & E2 & Hpost & Hend).
  exists pre, post. repeat split; auto.
  - rewrite <- E2. exact E1.
  - apply rstrip_keeps_start. exact Hst.
Qed.

(** ** The request executor *)

Section Executor.

Variable net : network.

Lemma send_request_get url headers json_data w :
  send_request net "GET" url headers json_data w =
  (Ret (executor_answer
          (net (List.length (calls w)) (mkRequest GET url headers json_data))),
   log_call w (mkRequest GET url headers json_data)).
Proof.
  unfold send_request, bind, try_except, http_call, ret, raise, log_call.
  simpl.
  destruct (net _ _) as [st [v|]|]; simpl; try reflexivity;
    destruct (st =? 200); reflexivity.
Qed.

Lemma send_request_post url headers json_data w :
  send_request net "POST" url headers json_data w =
  (Ret (executor_answer
          (net (List.length (calls w)) (mkRequest POST url headers json_data))),
   log_call w (mkRequest POST url headers json_data)).
Proof.
  unfold send_request, bind, try_except, http_call, ret, raise, log_call.
  simpl.
  destruct (net _ _) as [st [v|]|]; simpl; try reflexivity;
    destruct (st =? 200); reflexivity.
Qed.

(** C6. For a call of [send_request] with method GET or POST: a response
    with status 200 gives the parsed body; any other status gives [None]
    without raising; a transport failure, or a 200 body that does not parse,
    is caught and gives [None]; so the call always returns, and it issues
    exactly one HTTP call. *)
Theorem send_request_returns_or_fails_soft :
  forall (method : string) (func : http_method) url headers json_data w,
    (method = "GET" /\ func = GET) \/ (method = "POST" /\ func = POST) ->
    let rq := mkRequest func url headers json_data in
    let o := net (List.length (calls w)) rq in
    let r := fst (send_request net method url headers json_data w) in
    (forall body, o = Responded 200 (Some body) -> r = Ret body) /\
    (forall status body, status <> 200 -> o = Responded status body ->
                         r = Ret VNone) /\
    (o = Responded 200 None -> r = Ret VNone) /\
    (o = TransportFailed -> r = Ret VNone) /\
    (exists v, r = Ret v) /\
    calls (snd (send_request net method url headers json_data w))
    = (calls w ++ [rq])%list.
Proof.
  intros method func url headers json_data w Hm rq o r.
  assert (E : send_request net method url headers json_data w
              = (Ret (executor_answer o), log_call w rq)).
  { destruct Hm as [[-> ->] | [-> ->]];
      [apply send_request_get | apply send_request_post]. }
  subst r. rewrite E. simpl.
  repeat split.
  - intros body Ho. rewrite Ho. reflexivity.
  - intros status body Hs Ho. rewrite Ho. simpl.
    destruct body; [|reflexivity].
    destruct (status =? 200) eqn:H200; [|reflexivity].
    apply Z.eqb_eq in H200. contradiction.
  - intros Ho. rewrite Ho. reflexivity.
  - intros Ho. rewrite Ho. reflexivity.
  - eauto.
Qed.

End Executor.

Section Rewriter.

Variable net : network.

Lemma dict_get_set_same (d : dict) k v : Dict.get (Dict.set d k v) k = Some v.
Proof.
  induction d as [|[k' v'] r IH]; simpl.
  - rewrite String.eqb_refl. reflexivity.
  - destruct (String.eqb k' k) eqn:E; simpl; rewrite E; auto.
Qed.

Lemma rewrite_with_openai_calls akey text w :
  calls (snd (rewrite_with_openai net akey text w))
  = (calls w ++ [openai_request akey text])%list.
Proof.
  unfold rewrite_with_openai, bind. rewrite send_request_post.
  unfold try_except, lift, ret.
  match goal with |- context [executor_answer ?o] =>
    destruct (executor_answer o) end; simpl;
  try reflexivity;
  match goal with |- context [rbind ?a ?f] => destruct (rbind a f) end;
  reflexivity.
Qed.

Lemma rewrite_with_openai_result akey text w response t :
  net (List.length (calls w)) (openai_request akey text)
  = Responded 200 (Some response) ->
  choices_0_text response = Ret (VStr t) ->
  rewrite_with_openai net akey text w
  = (Ret (VStr (PyStr.strip t)), log_call w (openai_request akey text)).
Proof.
  intros Hnet Hc.
  unfold rewrite_with_openai, bind. rewrite send_request_post.
  change (mkRequest POST openai_url (bearer akey) _)
    with (openai_request akey text).
  rewrite Hnet. simpl executor_answer.
  unfold choices_0_text in Hc.
  destruct response; try discriminate Hc.
  unfold try_except, lift, ret.
  destruct (getitem_str (VDict d) "choices") as [cs|]; [|discriminate Hc].
  cbn [rbind] in *.
  destruct (getitem_0 cs) as [c|]; [|discriminate Hc].
  cbn [rbind] in *.
  rewrite Hc. reflexivity.
Qed.

(** C8. For every input text, [rewrite_with_openai] issues one POST with
    bearer authorisation whose prompt is the instruction to rewrite in a
    maximum of 50 words followed by the text, with [max_tokens] 50; and when
    the response is a 200 whose [choices[0].text] is a string, the result is
    that string with the spaces at both ends removed. *)
Theorem rewrite_with_openai_request_and_result :
  forall (akey text : string) (w : world),
    let rq := openai_request akey text in
    let run := rewrite_with_openai net akey text w in
    calls (snd run) = (calls w ++ [rq])%list /\
    rq_method rq = POST /\
    forall response t,
      net (List.length (calls w)) rq = Responded 200 (Some response) ->
      choices_0_text response = Ret (VStr t) ->
      fst run = Ret (VStr (PyStr.strip t)) /\
      exists pre post,
        t = pre ++ PyStr.strip t ++ post /\
        all_space pre = true /\ all_space post = true /\
        starts_with_space (PyStr.strip t) = false /\
        ends_with_space (PyStr.strip t) = false.
Proof.
  intros akey text w rq run. split; [|split].
  - apply rewrite_with_openai_calls.
  - reflexivity.
  - intros response t Hnet Hc. split.
    + subst run. rewrite (rewrite_with_openai_result _ _ _ _ _ Hnet Hc).
      reflexivity.
    + apply strip_spec.
Qed.

End Rewriter.

Lemma rewrite_with_openai_request_and_result_witness :
  fst (rewrite_with_openai Sample.net_ok "K" "Acme Corp makes widgets." world0)
  = Ret (VStr "Acme makes widgets.").
Proof.
  apply (rewrite_with_openai_request_and_result Sample.net_ok "K"
           "Acme Corp makes widgets." world0)
    with (response := Sample.completion) (t := "  Acme makes widgets.  ");
    reflexivity.
Defined.

Lemma send_request_returns_or_fails_soft_witness :
  fst (send_request Sample.net_404 "GET" "https://fmpcloud.io/x" [] VNone
         (log_call world0 (mkRequest GET "https://fmpcloud.io/" [] VNone)))
  = Ret VNone.
Proof.
  apply (send_request_returns_or_fails_soft Sample.net_404 "GET" GET
           "https://fmpcloud.io/x" [] VNone
           (log_call world0 (mkRequest GET "https://fmpcloud.io/" [] VNone)))
    with (status := 404) (body := None).
  - left. split; reflexivity.
  - discriminate.
  - reflexivity.
Defined.

(** ** The orchestrator *)

Section Orchestrator.

Variable cfg : config.
Variable net : network.

(** C9. With the completion-style backend selected, a record with a text
    description whose rewrite call returns 200 with [choices[0].text] equal
    to "  Acme makes widgets.  " gets "Acme makes widgets." stored under
    [description-new]. *)
Theorem rewrite_item_stores_trimmed_text :
  forall (item : dict) (d : string) (response : value) (w : world),
    PyStr.lower (rewrite_api cfg) = "openai" ->
    Dict.get item "description" = Some (VStr d) ->
    net (List.length (calls w)) (openai_request (api_key cfg) (d ++ main_prompt))
    = Responded 200 (Some response) ->
    choices_0_text response = Ret (VStr "  Acme makes widgets.  ") ->
    exists item',
      fst (rewrite_item cfg net item w) = Ret item' /\
      item' = Dict.set item "description-new" (VStr "Acme makes widgets.") /\
      Dict.get item' "description-new" = Some (VStr "Acme makes widgets.").
Proof.
  intros item d response w Hapi Hd Hnet Hc.
  exists (Dict.set item "description-new" (VStr "Acme makes widgets.")).
  split; [|split; [reflexivity | apply dict_get_set_same]].
  unfold rewrite_item, bind, lift. simpl getitem_str. rewrite Hd.
  simpl add_str. cbv iota beta. rewrite Hapi, String.eqb_refl.
  rewrite (rewrite_with_openai_result net _ _ _ _ _ Hnet Hc).
  reflexivity.
Qed.

Lemma get_available_traded_world w :
  calls (snd (get_available_traded cfg net w))
  = (calls w ++ [mkRequest GET (list_url cfg) [] VNone])%list /\
  output_csv (snd (get_available_traded cfg net w)) = output_csv w.
Proof.
  unfold get_available_traded, bind, http_call, set_list_json, raise.
  destruct (net _ _) as [st [v|]|]; simpl; auto.
Qed.

Lemma as_completed_nil {A} (order : list nat) :
  as_completed (@nil A) order = [].
Proof.
  induction order as [|i r IH]; [reflexivity|].
  unfold as_completed in *. simpl. rewrite IH.
  destruct i; reflexivity.
Qed.

(** C10. When no item passes the filter, [main] raises [IndexError] at
    line 257: output.csv is not opened, so neither a header nor a row is
    written, and the bulk list call is the only HTTP call of the run. *)
Theorem main_empty_candidates_index_error :
  forall (data : value) (order : list nat) (w : world),
    fst (get_available_traded cfg net w) = Ret tt ->
    filter_candidates data = Ret [] ->
    fst (main cfg net data order w) = Raise IndexError /\
    output_csv (snd (main cfg net data order w)) = output_csv w /\
    calls (snd (main cfg net data order w))
    = (calls w ++ [mkRequest GET (list_url cfg) [] VNone])%list.
Proof.
  intros data order w Hlist Hfilter.
  destruct (get_available_traded_world w) as [Hcalls Hcsv].
  unfold main, bind.
  destruct (get_available_traded cfg net w) as [r w1].
  simpl in Hlist, Hcalls, Hcsv. subst r.
  unfold lift. rewrite Hfilter.
  unfold update_with_profile, bind, lift. simpl.
  rewrite as_completed_nil. simpl. auto.
Qed.

End Orchestrator.

Lemma rewrite_item_stores_trimmed_text_witness :
  exists item',
    fst (rewrite_item Sample.cfg_openai Sample.net_ok
           [("symbol", VStr "ACME");
            ("description", VStr "Acme Corp makes widgets.")] world0)
    = Ret item' /\
    Dict.get item' "description-new" = Some (VStr "Acme makes widgets.").
Proof.
  destruct (rewrite_item_stores_trimmed_text Sample.cfg_openai Sample.net_ok
              [("symbol", VStr "ACME");
               ("description", VStr "Acme Corp makes widgets.")]
              "Acme Corp makes widgets." Sample.completion world0
              eq_refl eq_refl eq_refl eq_refl) as (item' & Hrun & _ & Hget).
  exists item'. split; assumption.
Defined.

Lemma main_empty_candidates_index_error_witness :
  fst (main Sample.cfg_openai Sample.net_ok (VList []) [] world0)
  = Raise IndexError /\
  output_csv (snd (main Sample.cfg_openai Sample.net_ok (VList []) [] world0))
  = None.
Proof.
  destruct (main_empty_candidates_index_error Sample.cfg_openai Sample.net_ok
              (VList []) [] world0 eq_refl eq_refl) as (Hr & Hcsv & _).
  split; assumption.
Defined.

(** ** The candidate filter *)

Lemma same_letter_lower (a b : ascii) :
  PyStr.is_upper_letter b = false ->
  Spec.same_letter a b = Ascii.eqb (PyStr.lower_char a) b.
Proof.
  intros Hb. unfold Spec.same_letter, PyStr.lower_char.
  rewrite Hb. simpl. rewrite orb_false_r.
  destruct (PyStr.is_upper_letter a) eqn:Ha; simpl.
  - destruct (Ascii.eqb_spec a b) as [->|_]; [congruence | reflexivity].
  - apply orb_false_r.
Qed.

Lemma matches_ci_lower (l : string) :
  no_upper l = true ->
  forall t, Spec.matches_ci t l = String.eqb (PyStr.lower t) l.
Proof.
  induction l as [|b l IH]; intros Hl t; destruct t as [|a t]; simpl; auto.
  simpl in Hl. apply andb_true_iff in Hl. destruct Hl as [Hb Hl].
  apply negb_true_iff in Hb.
  rewrite (same_letter_lower _ _ Hb), (IH Hl).
  destruct (Ascii.eqb (PyStr.lower_char a) b); reflexivity.
Qed.

Lemma is_candidate_spec (d : dict) :
  instrument_ok d = true -> is_candidate (VDict d) = Ret (Spec.candidate d).
Proof.
  unfold instrument_ok, is_candidate, Spec.candidate, getitem_str.
  destruct (Dict.get d "type") as [[| | |t| |]|]; try discriminate.
  destruct (Dict.get d "exchangeShortName") as [e|]; try discriminate.
  intros _. simpl.
  rewrite !matches_ci_lower by reflexivity.
  rewrite !orb_false_r.
  destruct (String.eqb (PyStr.lower t) "stock" || String.eqb (PyStr.lower t) "etf");
    reflexivity.
Qed.

(** C7. On a list of instrument objects, the filter keeps exactly the items
    whose [type] is stock or etf up to case and whose [exchangeShortName] is
    AMEX or NASDAQ; the kept items are the input items themselves, in the
    order of the input. *)
Theorem filter_candidates_spec :
  forall items : list dict,
    Forall (fun d => instrument_ok d = true) items ->
    filter_candidates (VList (map VDict items))
    = Ret (filter Spec.candidate items).
Proof.
  intros items Hok. unfold filter_candidates. simpl.
  induction Hok as [|d items Hd _ IH]; [reflexivity|].
  simpl. rewrite (is_candidate_spec d Hd). simpl. rewrite IH. reflexivity.
Qed.

Lemma filter_candidates_spec_witness :
  filter_candidates
    (VList [VDict [("symbol", VStr "A"); ("type", VStr "Stock");
                   ("exchangeShortName", VStr "NASDAQ")];
            VDict [("symbol", VStr "B"); ("type", VStr "stock");
                   ("exchangeShortName", VStr "NYSE")];
            VDict [("symbol", VStr "C"); ("type", VStr "fund");
                   ("exchangeShortName", VStr "AMEX")];
            VDict [("symbol", VStr "D"); ("type", VStr "ETF");
                   ("exchangeShortName", VStr "AMEX")]])
  = Ret [[("symbol", VStr "A"); ("type", VStr "Stock");
          ("exchangeShortName", VStr "NASDAQ")];
         [("symbol", VStr "D"); ("type", VStr "ETF");
          ("exchangeShortName", VStr "AMEX")]].
Proof.
  apply (filter_candidates_spec
           [[("symbol", VStr "A"); ("type", VStr "Stock");
             ("exchangeShortName", VStr "NASDAQ")];
            [("symbol", VStr "B"); ("type", VStr "stock");
             ("exchangeShortName", VStr "NYSE")];
            [("symbol", VStr "C"); ("type", VStr "fund");
             ("exchangeShortName", VStr "AMEX")];
            [("symbol", VStr "D"); ("type", VStr "ETF");
             ("exchangeShortName", VStr "AMEX")]]).
  repeat constructor.
Defined.

(** ** Keys and the record collection *)

Lemma key_eqb_norm (a b : hkey) : key_eqb a b = true <-> norm a = norm b.
Proof.
  destruct a as [|x|n|s], b as [|y|m|t]; simpl;
    try (split; intros H; discriminate H);
    try (split; reflexivity).
  - destruct x, y; simpl; split; intros H; try reflexivity; discriminate H.
  - rewrite Z.eqb_eq. split; [intros ->; reflexivity | intros H; congruence].
  - rewrite Z.eqb_eq. split; [intros ->; reflexivity | intros H; congruence].
  - rewrite Z.eqb_eq. split; [intros ->; reflexivity | intros H; congruence].
  - rewrite String.eqb_eq. split; [intros ->; reflexivity | intros H; congruence].
Qed.

Lemma key_eqb_false_norm (a b : hkey) :
  key_eqb a b = false <-> norm a <> norm b.
Proof.
  rewrite <- key_eqb_norm. destruct (key_eqb a b); split; congruence.
Qed.

Module DataMapFacts.

Import DataMap.

Lemma get_set_same m k v : get (set m k v) k = Some v.
Proof.
  induction m as [|[k' v'] r IH]; simpl.
  - replace (key_eqb k k) with true; [reflexivity|].
    symmetry. apply key_eqb_norm. reflexivity.
  - destruct (key_eqb k' k) eqn:E; simpl; rewrite E; auto.
Qed.

Lemma get_set_other m k1 k2 v :
  norm k1 <> norm k2 -> get (set m k1 v) k2 = get m k2.
Proof.
  intros Hne. induction m as [|[k' v'] r IH]; simpl.
  - apply key_eqb_false_norm in Hne. rewrite Hne. reflexivity.
  - destruct (key_eqb k' k1) eqn:E1; simpl.
    + destruct (key_eqb k' k2) eqn:E2; [|reflexivity].
      apply key_eqb_norm in E1, E2. congruence.
    + destruct (key_eqb k' k2); auto.
Qed.

Lemma set_keys m k v a : get m k = Some a -> keys (set m k v) = keys m.
Proof.
  unfold keys. induction m as [|[k' v'] r IH]; simpl; [discriminate|].
  destruct (key_eqb k' k); simpl; intros H; [reflexivity|].
  f_equal. auto.
Qed.

Lemma set_set_comm m k1 k2 v1 v2 a b :
  norm k1 <> norm k2 -> get m k1 = Some a -> get m k2 = Some b ->
  set (set m k1 v1) k2 v2 = set (set m k2 v2) k1 v1.
Proof.
  intros Hne. induction m as [|[k' v'] r IH]; simpl; [discriminate|].
  destruct (key_eqb k' k1) eqn:E1, (key_eqb k' k2) eqn:E2; simpl;
    rewrite ?E1, ?E2; intros H1 H2.
  - apply key_eqb_norm in E1, E2. congruence.
  - reflexivity.
  - reflexivity.
  - f_equal. auto.
Qed.

Lemma get_some_kset m k : In (norm k) (kset m) <-> exists v, get m k = Some v.
Proof.
  unfold kset, keys. induction m as [|[k' v'] r IH]; simpl.
  - split; [tauto | intros [v H]; discriminate].
  - destruct (key_eqb k' k) eqn:E.
    + apply key_eqb_norm in E. split; eauto.
    + apply key_eqb_false_norm in E. rewrite IH. split; [|tauto].
      intros [H|H]; [congruence | exact H].
Qed.

(** An entry of the collection after [set]: an old entry, or the new value
    under a key equal to the new key. *)
Lemma set_in m k v k0 r :
  In (k0, r) (set m k v) -> In (k0, r) m \/ (r = v /\ norm k0 = norm k).
Proof.
  induction m as [|[k' v'] m IH]; simpl.
  - intros [H|[]]. inversion H. auto.
  - destruct (key_eqb k' k) eqn:E; simpl.
    + intros [H|H]; [|auto]. inversion H; subst.
      apply key_eqb_norm in E. auto.
    + intros [H|H]; [auto|]. destruct (IH H); auto.
Qed.

Lemma set_kset_incl m k v : incl (kset m) (kset (set m k v)).
Proof.
  unfold kset, keys. induction m as [|[k' v'] m IH]; simpl.
  - intros x [].
  - destruct (key_eqb k' k); simpl; [apply incl_refl|].
    intros x [H|H]; [left; exact H | right; apply IH; exact H].
Qed.

Lemma set_kset_new m k v : In (norm k) (kset (set m k v)).
Proof.
  apply get_some_kset. exists v. apply get_set_same.
Qed.

Lemma set_kset_inv m k v x :
  In x (kset (set m k v)) -> In x (kset m) \/ x = norm k.
Proof.
  unfold kset, keys. induction m as [|[k' v'] m IH]; simpl.
  - intros [H|[]]; auto.
  - destruct (key_eqb k' k); simpl; [auto|].
    intros [H|H]; [auto|]. destruct (IH H); auto.
Qed.

Lemma set_nodup m k v : NoDup (kset m) -> NoDup (kset (set m k v)).
Proof.
  unfold kset, keys. induction m as [|[k' v'] m IH]; simpl; intros Hnd.
  - constructor; [intros [] | constructor].
  - destruct (key_eqb k' k) eqn:E; simpl; [exact Hnd|].
    inversion Hnd as [|x l Hnotin Hnd']; subst.
    constructor; [|apply IH; exact Hnd'].
    intros Hin. destruct (set_kset_inv _ _ _ _ Hin) as [H|H].
    + exact (Hnotin H).
    + apply key_eqb_false_norm in E. exact (E H).
Qed.

End DataMapFacts.

(** ** Merging one completed fetch *)

Section Merge.

Import DataMap.

Lemma merge_profile_none m k : merge_profile m (VNone, k) = Ret m.
Proof. reflexivity. Qed.

Lemma merge_profile_some m pd k :
  pd <> VNone ->
  merge_profile m (pd, k)
  = match get m k with
    | None => Raise KeyError
    | Some item =>
        rbind (profile_literal pd profile_fields) (fun u =>
        Ret (set m k (Dict.update item u)))
    end.
Proof.
  intros Hpd. destruct pd; try reflexivity. congruence.
Qed.

Lemma value_none_dec (v : value) : {v = VNone} + {v <> VNone}.
Proof. destruct v; (left; reflexivity) || (right; discriminate). Qed.

Lemma merge_profile_keys m c m' :
  merge_profile m c = Ret m' -> keys m' = keys m.
Proof.
  destruct c as [pd k]. destruct (value_none_dec pd) as [->|Hpd].
  - rewrite merge_profile_none. intros H. inversion H. reflexivity.
  - rewrite (merge_profile_some _ _ _ Hpd).
    destruct (get m k) as [item|] eqn:Hg; [|discriminate].
    destruct (profile_literal pd profile_fields) as [u|]; [|discriminate].
    simpl. intros H. inversion H. eapply DataMapFacts.set_keys. exact Hg.
Qed.

Lemma merge_profile_kset m c m' :
  merge_profile m c = Ret m' -> kset m' = kset m.
Proof.
  intros H. unfold kset. rewrite (merge_profile_keys _ _ _ H). reflexivity.
Qed.

(** Whether a merge raises depends on the keys of the collection only. *)
Lemma merge_profile_raises_kset m1 m2 c :
  kset m1 = kset m2 ->
  returned (merge_profile m1 c) = None -> returned (merge_profile m2 c) = None.
Proof.
  intros Hk. destruct c as [pd k]. destruct (value_none_dec pd) as [->|Hpd].
  - rewrite merge_profile_none. discriminate.
  - rewrite !(merge_profile_some _ _ _ Hpd).
    destruct (get m1 k) as [i1|] eqn:H1.
    + destruct (profile_literal pd profile_fields) as [u|].
      * discriminate.
      * intros _. destruct (get m2 k); reflexivity.
    + intros _. destruct (get m2 k) as [i2|] eqn:H2; [|reflexivity].
      assert (Hin : In (norm k) (kset m2))
        by (apply DataMapFacts.get_some_kset; eauto).
      rewrite <- Hk in Hin. apply DataMapFacts.get_some_kset in Hin.
      destruct Hin as [v Hv]. congruence.
Qed.

(** Two merges about different keys commute. *)
Lemma merge_profile_comm m x y :
  norm (snd x) <> norm (snd y) ->
  returned (rbind (merge_profile m x) (fun m' => merge_profile m' y))
  = returned (rbind (merge_profile m y) (fun m' => merge_profile m' x)).
Proof.
  destruct x as [pd1 k1], y as [pd2 k2]. cbn [snd]. intros Hne.
  destruct (value_none_dec pd1) as [->|Hpd1].
  { rewrite merge_profile_none. cbn [rbind].
    destruct (merge_profile m (pd2, k2)); reflexivity. }
  destruct (value_none_dec pd2) as [->|Hpd2].
  { rewrite merge_profile_none. cbn [rbind].
    destruct (merge_profile m (pd1, k1)); reflexivity. }
  rewrite (merge_profile_some m _ _ Hpd1), (merge_profile_some m _ _ Hpd2).
  destruct (get m k1) as [i1|] eqn:H1, (get m k2) as [i2|] eqn:H2;
    destruct (profile_literal pd1 profile_fields) as [u1|] eqn:L1;
    destruct (profile_literal pd2 profile_fields) as [u2|] eqn:L2;
    cbn [rbind returned];
    rewrite ?(merge_profile_some _ _ _ Hpd1), ?(merge_profile_some _ _ _ Hpd2);
    rewrite ?DataMapFacts.get_set_other by (auto || congruence);
    rewrite ?H1, ?H2, ?L1, ?L2; cbn [rbind returned]; try reflexivity.
  f_equal. eapply DataMapFacts.set_set_comm; eauto.
Qed.

Lemma compatible_tail c cs : compatible (c :: cs) -> compatible cs.
Proof.
  intros H a b Ha Hb. apply H; right; assumption.
Qed.

Lemma compatible_perm cs1 cs2 :
  Permutation cs1 cs2 -> compatible cs1 -> compatible cs2.
Proof.
  intros Hp H a b Ha Hb.
  apply H; eapply Permutation_in; try eassumption;
    apply Permutation_sym; exact Hp.
Qed.

(** The outcome of the merging loop does not depend on the order of the
    completions. *)
Lemma merge_all_perm cs1 cs2 :
  Permutation cs1 cs2 -> compatible cs1 ->
  forall m, returned (merge_all m cs1) = returned (merge_all m cs2).
Proof.
  induction 1 as [|c l1 l2 Hp IH|x y l|l1 l2 l3 Hp1 IH1 Hp2 IH2];
    intros Hc m.
  - reflexivity.
  - simpl. destruct (merge_profile m c) as [m'|]; [|reflexivity].
    simpl. apply IH. eapply compatible_tail. exact Hc.
  - simpl.
    destruct (Hc x y) as [->|Hne]; [right; left; reflexivity
                                   | left; reflexivity | reflexivity |].
    assert (Hcomm := merge_profile_comm m y x (not_eq_sym Hne)).
    destruct (merge_profile m y) as [my|], (merge_profile m x) as [mx|];
      cbn [rbind returned] in *.
    + destruct (merge_profile my x) as [myx|],
               (merge_profile mx y) as [mxy|];
        cbn [rbind returned] in *; congruence.
    + destruct (merge_profile my x); [discriminate | reflexivity].
    + destruct (merge_profile mx y); [discriminate | reflexivity].
    + reflexivity.
  - rewrite (IH1 Hc m). apply IH2. eapply compatible_perm; eassumption.
Qed.

End Merge.

(** ** The profile enricher *)

Section Enricher.

Import DataMap.

Variable net : network.
Variables api_url akey : string.

Lemma mapM_get_profile_data ks w :
  mapM (get_profile_data net api_url akey) ks w
  = (Ret (fetch_all net api_url akey ks (List.length (calls w))),
     fold_left log_call (map (profile_request api_url akey) ks) w).
Proof.
  revert w. induction ks as [|k ks IH]; intros w; [reflexivity|].
  simpl. unfold bind at 1. unfold get_profile_data at 1. unfold bind at 1.
  rewrite send_request_get. unfold ret at 1. unfold bind at 1.
  rewrite IH. unfold ret. simpl.
  rewrite length_app, Nat.add_1_r. reflexivity.
Qed.

Lemma fetch_all_snd ks n : map snd (fetch_all net api_url akey ks n) = ks.
Proof.
  revert n. induction ks as [|k ks IH]; intros n; simpl; [|rewrite IH];
    reflexivity.
Qed.

Lemma fetch_all_compatible ks n :
  NoDup (map norm ks) -> compatible (fetch_all net api_url akey ks n).
Proof.
  revert n. induction ks as [|k ks IH]; intros n Hnd a b Ha Hb.
  - destruct Ha.
  - simpl in Hnd. inversion Hnd as [|x l Hnotin Hnd']; subst.
    assert (Htail : forall c, In c (fetch_all net api_url akey ks (S n)) ->
                              norm (snd c) <> norm k).
    { intros c Hc E. apply Hnotin. rewrite <- E.
      apply in_map. rewrite <- (fetch_all_snd ks (S n)).
      apply in_map. exact Hc. }
    simpl in Ha, Hb. destruct Ha as [<-|Ha], Hb as [<-|Hb].
    + left. reflexivity.
    + right. simpl. apply not_eq_sym. apply Htail. exact Hb.
    + right. simpl. apply Htail. exact Ha.
    + apply (IH (S n) Hnd'); assumption.
Qed.

Lemma as_completed_incl {A} (tasks : list A) order :
  incl (as_completed tasks order) tasks.
Proof.
  intros c Hc. unfold as_completed in Hc. apply in_flat_map in Hc.
  destruct Hc as (i & _ & Hi).
  destruct (nth_error tasks i) as [t|] eqn:E; [|destruct Hi].
  destruct Hi as [<-|[]]. eapply nth_error_In. exact E.
Qed.

Lemma compatible_incl cs cs' : incl cs' cs -> compatible cs -> compatible cs'.
Proof.
  intros Hi H a b Ha Hb. apply H; apply Hi; assumption.
Qed.

Lemma update_with_profile_unfold fd order w :
  update_with_profile net fd api_url akey order w
  = match build_data_map [] fd with
    | Raise e => (Raise e, w)
    | Ret dm =>
        let w' := fold_left log_call
                    (map (profile_request api_url akey) (keys dm)) w in
        match merge_all dm
                (as_completed
                   (fetch_all net api_url akey (keys dm) (List.length (calls w)))
                   order) with
        | Ret dm' => (Ret (values dm'), w')
        | Raise e => (Raise e, w')
        end
    end.
Proof.
  unfold update_with_profile, bind, lift.
  destruct (build_data_map [] fd) as [dm|e]; [|reflexivity].
  rewrite mapM_get_profile_data.
  destruct (merge_all dm _); reflexivity.
Qed.

Lemma build_data_map_nodup fd acc m :
  NoDup (kset acc) -> build_data_map acc fd = Ret m -> NoDup (kset m).
Proof.
  revert acc. induction fd as [|item fd IH]; intros acc Hnd;
    cbn [build_data_map].
  - intros H. inversion H. subst. exact Hnd.
  - destruct (getitem_str (VDict item) "symbol") as [s|]; cbn [rbind];
      [|discriminate].
    destruct (to_key s) as [k|]; cbn [rbind]; [|discriminate].
    apply IH. apply DataMapFacts.set_nodup. exact Hnd.
Qed.

(** C5. For a fixed network, hence fixed results of the fetches, two
    completion orders that are permutations of each other give the same
    returned collection (or no collection in both), and the same calls. *)
Theorem update_with_profile_order_independent :
  forall (fd : list dict) (order1 order2 : list nat) (w : world),
    Permutation order1 order2 ->
    returned (fst (update_with_profile net fd api_url akey order1 w))
    = returned (fst (update_with_profile net fd api_url akey order2 w)) /\
    snd (update_with_profile net fd api_url akey order1 w)
    = snd (update_with_profile net fd api_url akey order2 w).
Proof.
  intros fd order1 order2 w Hp.
  rewrite !update_with_profile_unfold.
  destruct (build_data_map [] fd) as [dm|e] eqn:Hb; [|split; reflexivity].
  set (tasks := fetch_all net api_url akey (keys dm) (List.length (calls w))).
  assert (Hm : returned (merge_all dm (as_completed tasks order1))
               = returned (merge_all dm (as_completed tasks order2))).
  { apply merge_all_perm.
    - unfold as_completed. apply Permutation_flat_map. exact Hp.
    - apply compatible_incl with (cs := tasks).
      + apply as_completed_incl.
      + apply fetch_all_compatible.
        apply (build_data_map_nodup fd [] dm); [constructor | exact Hb]. }
  cbv zeta.
  destruct (merge_all dm (as_completed tasks order1)),
           (merge_all dm (as_completed tasks order2));
    simpl in *; try discriminate; split; congruence.
Qed.

End Enricher.

Lemma update_with_profile_order_independent_witness :
  returned (fst (update_with_profile Sample.net_ok
                   [Sample.instrument "A"; Sample.instrument "B"]
                   profile_url "K" [0; 1]%nat world0))
  = returned (fst (update_with_profile Sample.net_ok
                     [Sample.instrument "A"; Sample.instrument "B"]
                     profile_url "K" [1; 0]%nat world0)).
Proof.
  apply (update_with_profile_order_independent Sample.net_ok profile_url "K"
           [Sample.instrument "A"; Sample.instrument "B"]
           [0; 1]%nat [1; 0]%nat world0).
  apply perm_swap.
Defined.

(** ** No record is dropped *)

Section Keeps.

Import DataMap.

Lemma record_for_iff k r :
  record_for k r = true <->
  exists s k', Dict.get r "symbol" = Some s /\ to_key s = Ret k' /\
               norm k' = norm k.
Proof.
  unfold record_for. split.
  - destruct (Dict.get r "symbol") as [s|]; [|discriminate].
    destruct (to_key s) as [k'|] eqn:Hk; [|discriminate].
    intros H. apply key_eqb_norm in H. exists s, k'. auto.
  - intros (s & k' & -> & -> & H). apply key_eqb_norm. exact H.
Qed.

Lemma record_for_norm k1 k2 r :
  norm k1 = norm k2 -> record_for k1 r = true -> record_for k2 r = true.
Proof.
  intros E H. apply record_for_iff in H. destruct H as (s & k' & Hs & Hk & Hn).
  apply record_for_iff. exists s, k'. repeat split; congruence.
Qed.

Lemma get_in m k v :
  get m k = Some v -> exists k0, In (k0, v) m /\ norm k0 = norm k.
Proof.
  induction m as [|[k' v'] m IH]; simpl; [discriminate|].
  destruct (key_eqb k' k) eqn:E.
  - intros H. inversion H; subst. apply key_eqb_norm in E. eauto.
  - intros H. destruct (IH H) as (k0 & Hin & Hn). eauto.
Qed.

Lemma kset_in m x : In x (kset m) -> exists k r, In (k, r) m /\ norm k = x.
Proof.
  unfold kset, keys. rewrite map_map. intros H. apply in_map_iff in H.
  destruct H as ([k r] & Hn & Hin). eauto.
Qed.

Lemma dict_get_set_other d k k' v :
  k <> k' -> Dict.get (Dict.set d k v) k' = Dict.get d k'.
Proof.
  intros Hne. induction d as [|[a b] d IH]; simpl.
  - apply String.eqb_neq in Hne. rewrite Hne. reflexivity.
  - destruct (String.eqb a k) eqn:E; simpl.
    + apply String.eqb_eq in E. subst a.
      apply String.eqb_neq in Hne. rewrite Hne. reflexivity.
    + destruct (String.eqb a k'); auto.
Qed.

Lemma dict_get_update_other u d k' :
  ~ In k' (map fst u) -> Dict.get (Dict.update d u) k' = Dict.get d k'.
Proof.
  unfold Dict.update. revert d.
  induction u as [|[a b] u IH]; intros d Hn; simpl; [reflexivity|].
  simpl in Hn. rewrite IH by tauto.
  apply dict_get_set_other. tauto.
Qed.

Lemma profile_literal_keys pd fs u :
  profile_literal pd fs = Ret u -> map fst u = fs.
Proof.
  revert u. induction fs as [|f fs IH]; intros u; cbn [profile_literal].
  - intros H. inversion H. reflexivity.
  - destruct (getitem_0 pd) as [first|]; cbn [rbind]; [|discriminate].
    destruct (getitem_str first f) as [x|]; cbn [rbind]; [|discriminate].
    destruct (profile_literal pd fs) as [rest|]; cbn [rbind]; [|discriminate].
    intros H. inversion H. simpl. f_equal. apply IH. reflexivity.
Qed.

Lemma record_for_update k item pd u :
  profile_literal pd profile_fields = Ret u ->
  record_for k (Dict.update item u) = record_for k item.
Proof.
  intros Hu. unfold record_for. rewrite dict_get_update_other; [reflexivity|].
  rewrite (profile_literal_keys _ _ _ Hu). unfold profile_fields. simpl.
  intros H. repeat (destruct H as [H|H]; [discriminate H|]). exact H.
Qed.

Lemma merge_profile_keyed m c m' :
  merge_profile m c = Ret m' -> keyed m -> keyed m'.
Proof.
  destruct c as [pd k]. destruct (value_none_dec pd) as [->|Hpd].
  - rewrite merge_profile_none. intros H. inversion H. auto.
  - rewrite (merge_profile_some _ _ _ Hpd).
    destruct (get m k) as [item|] eqn:Hg; [|discriminate].
    destruct (profile_literal pd profile_fields) as [u|] eqn:Hu;
      cbn [rbind]; [|discriminate].
    intros H Hm k0 r Hin. inversion H; subst m'; clear H.
    apply DataMapFacts.set_in in Hin. destruct Hin as [Hin|[-> Hn]].
    + apply Hm. exact Hin.
    + rewrite (record_for_update _ _ _ _ Hu).
      destruct (get_in _ _ _ Hg) as (k1 & Hin1 & Hn1).
      apply record_for_norm with (k1 := k1); [congruence|].
      apply Hm. exact Hin1.
Qed.

Lemma merge_all_keyed cs m m' :
  merge_all m cs = Ret m' -> keyed m -> kset m' = kset m /\ keyed m'.
Proof.
  revert m. induction cs as [|c cs IH]; intros m; cbn [merge_all].
  - intros H. inversion H. auto.
  - destruct (merge_profile m c) as [m1|] eqn:H1; cbn [rbind]; [|discriminate].
    intros H Hm.
    destruct (IH m1 H (merge_profile_keyed _ _ _ H1 Hm)) as [Hk Hkeyed].
    split; [|exact Hkeyed].
    rewrite Hk. eapply merge_profile_kset. exact H1.
Qed.

Lemma build_data_map_keyed fd acc m :
  build_data_map acc fd = Ret m -> keyed acc ->
  keyed m /\ incl (kset acc) (kset m) /\
  forall item s k, In item fd -> Dict.get item "symbol" = Some s ->
                   to_key s = Ret k -> In (norm k) (kset m).
Proof.
  revert acc. induction fd as [|item fd IH]; intros acc;
    cbn [build_data_map].
  - intros H Ha. inversion H; subst. split; [exact Ha|].
    split; [apply incl_refl|]. intros ? ? ? [].
  - unfold getitem_str.
    destruct (Dict.get item "symbol") as [s|] eqn:Hs; cbn [rbind];
      [|discriminate].
    destruct (to_key s) as [k|] eqn:Hk; cbn [rbind]; [|discriminate].
    intros H Ha.
    assert (Ha' : keyed (set acc k item)).
    { intros k0 r Hin. apply DataMapFacts.set_in in Hin.
      destruct Hin as [Hin|[-> Hn]]; [apply Ha; exact Hin|].
      apply record_for_iff. exists s, k. auto. }
    destruct (IH _ H Ha') as (Hm & Hincl & Hcov).
    split; [exact Hm|]. split.
    + eapply incl_tran; [apply DataMapFacts.set_kset_incl | exact Hincl].
    + intros item' s' k' [<-|Hin] Hs' Hk'.
      * apply Hincl. replace k' with k by congruence.
        apply DataMapFacts.set_kset_new.
      * eapply Hcov; eassumption.
Qed.

Lemma build_data_map_total fd acc :
  Forall (fun d => hashable_symbol d = true) fd ->
  exists m, build_data_map acc fd = Ret m.
Proof.
  intros Hfd. revert acc.
  induction Hfd as [|item fd Hi _ IH]; intros acc; cbn [build_data_map].
  - eauto.
  - unfold hashable_symbol in Hi. unfold getitem_str.
    destruct (Dict.get item "symbol") as [s|]; [|discriminate].
    cbn [rbind]. destruct (to_key s) as [k|]; [|discriminate].
    cbn [rbind]. apply IH.
Qed.

Lemma merge_profile_total m pd k :
  mergeable pd = true -> In (norm k) (kset m) ->
  exists m', merge_profile m (pd, k) = Ret m'.
Proof.
  intros Hpd Hk. destruct (value_none_dec pd) as [->|Hn].
  - rewrite merge_profile_none. eauto.
  - rewrite (merge_profile_some _ _ _ Hn).
    apply DataMapFacts.get_some_kset in Hk. destruct Hk as [item ->].
    assert (E : exists u, profile_literal pd profile_fields = Ret u).
    { unfold mergeable in Hpd.
      destruct (profile_literal pd profile_fields) as [u|]; [eauto|].
      destruct pd; congruence. }
    destruct E as [u ->]. cbn [rbind]. eauto.
Qed.

Lemma merge_all_total cs m :
  (forall c, In c cs -> mergeable (fst c) = true /\ In (norm (snd c)) (kset m)) ->
  exists m', merge_all m cs = Ret m'.
Proof.
  revert m. induction cs as [|[pd k] cs IH]; intros m Hcs; cbn [merge_all].
  - eauto.
  - destruct (Hcs (pd, k) (or_introl eq_refl)) as [Hpd Hk].
    destruct (merge_profile_total m pd k Hpd Hk) as [m1 H1].
    rewrite H1. cbn [rbind]. apply IH.
    intros c Hc. rewrite (merge_profile_kset _ _ _ H1).
    apply Hcs. right. exact Hc.
Qed.

Variable net : network.
Variables api_url akey : string.

Lemma fetch_all_mergeable ks n c :
  benign net -> In c (fetch_all net api_url akey ks n) ->
  mergeable (fst c) = true /\ In (snd c) ks.
Proof.
  intros Hb. revert n. induction ks as [|k ks IH]; intros n; simpl; [tauto|].
  intros [<-|Hc]; simpl.
  - split; [apply Hb | left; reflexivity].
  - destruct (IH _ Hc). auto.
Qed.

(** C4. For a symbol that is a key of the input, the collection the
    enricher returns holds a record for it, whatever the fetches gave and in
    whatever order they completed; and when every fetch either failed or
    gave a body with the six fields, the enricher does return a collection. *)
Theorem update_with_profile_keeps_every_symbol :
  forall (fd : list dict) (order : list nat) (w : world)
         (item : dict) (s : value) (k : hkey),
    In item fd ->
    Dict.get item "symbol" = Some s ->
    to_key s = Ret k ->
    (forall out,
        fst (update_with_profile net fd api_url akey order w) = Ret out ->
        has_record_for out k) /\
    (Forall (fun d => hashable_symbol d = true) fd -> benign net ->
     exists out,
       fst (update_with_profile net fd api_url akey order w) = Ret out /\
       has_record_for out k).
Proof.
  intros fd order w item s k Hin Hs Hk.
  assert (Hpartial : forall out,
             fst (update_with_profile net fd api_url akey order w) = Ret out ->
             has_record_for out k).
  { intros out. rewrite update_with_profile_unfold.
    destruct (build_data_map [] fd) as [dm|e] eqn:Hb; [|discriminate].
    cbv zeta.
    destruct (merge_all dm _) as [dm'|e] eqn:Hm; [|discriminate].
    simpl. intros H. inversion H; subst out; clear H.
    assert (Hnil : keyed []) by (intros ? ? []).
    destruct (build_data_map_keyed _ _ _ Hb Hnil) as (Hkeyed & _ & Hcov).
    destruct (merge_all_keyed _ _ _ Hm Hkeyed) as [Hks Hkeyed'].
    specialize (Hcov item s k Hin Hs Hk). rewrite <- Hks in Hcov.
    destruct (kset_in _ _ Hcov) as (k0 & r & Hr & Hn).
    exists r. split.
    - unfold values. change r with (snd (k0, r)). apply in_map. exact Hr.
    - apply record_for_norm with (k1 := k0); [exact Hn|].
      apply Hkeyed'. exact Hr. }
  split; [exact Hpartial|].
  intros Hfd Hben.
  assert (E : exists out,
             fst (update_with_profile net fd api_url akey order w) = Ret out).
  { rewrite update_with_profile_unfold.
    destruct (build_data_map_total fd [] Hfd) as [dm Hb]. rewrite Hb.
    cbv zeta.
    destruct (merge_all_total
                (as_completed
                   (fetch_all net api_url akey (keys dm) (List.length (calls w)))
                   order) dm) as [dm' Hm].
    { intros c Hc. apply as_completed_incl in Hc.
      destruct (fetch_all_mergeable _ _ _ Hben Hc) as [Hmg Hkey].
      split; [exact Hmg|]. unfold kset. apply in_map. exact Hkey. }
    rewrite Hm. simpl. eauto. }
  destruct E as [out Hout]. exists out. split; [exact Hout|].
  apply Hpartial. exact Hout.
Qed.

End Keeps.

Lemma update_with_profile_keeps_every_symbol_witness :
  exists out,
    fst (update_with_profile Sample.net_mixed
           [Sample.instrument "ACME"; Sample.instrument "BOLT"]
           profile_url "K" [1; 0]%nat world0) = Ret out /\
    has_record_for out (HStr "BOLT").
Proof.
  apply (update_with_profile_keeps_every_symbol Sample.net_mixed profile_url
           "K" [Sample.instrument "ACME"; Sample.instrument "BOLT"]
           [1; 0]%nat world0 (Sample.instrument "BOLT") (VStr "BOLT")
           (HStr "BOLT")).
  - right. left. reflexivity.
  - reflexivity.
  - reflexivity.
  - repeat constructor.
  - intros [|n] rq; reflexivity.
Defined.

(** ** Runs that abort *)

Lemma fold_log_call rqs w :
  calls (fold_left log_call rqs w) = (calls w ++ rqs)%list /\
  output_csv (fold_left log_call rqs w) = output_csv w.
Proof.
  revert w. induction rqs as [|rq rqs IH]; intros w; simpl.
  - rewrite app_nil_r. auto.
  - destruct (IH (log_call w rq)) as [Hc Ho]. rewrite Hc, Ho. simpl.
    rewrite <- app_assoc. auto.
Qed.

(** A success that is not mergeable makes the loop body raise, whatever the
    collection holds. *)
Lemma merge_profile_malformed_raises m pd k :
  mergeable pd = false -> returned (merge_profile m (pd, k)) = None.
Proof.
  intros Hpd. destruct (value_none_dec pd) as [->|Hn]; [discriminate Hpd|].
  rewrite (merge_profile_some _ _ _ Hn).
  destruct (DataMap.get m k); [|reflexivity].
  unfold mergeable in Hpd.
  destruct (profile_literal pd profile_fields); [|reflexivity].
  destruct pd; congruence.
Qed.

(** One such completion among those processed makes the whole loop raise. *)
Lemma merge_all_malformed_raises cs m c :
  In c cs -> mergeable (fst c) = false -> returned (merge_all m cs) = None.
Proof.
  revert m. induction cs as [|c' cs IH]; intros m Hin Hc; [destruct Hin|].
  cbn [merge_all].
  destruct Hin as [->|Hin].
  - destruct c as [pd k]. simpl in Hc.
    assert (H := merge_profile_malformed_raises m pd k Hc).
    destruct (merge_profile m (pd, k)); [discriminate H | reflexivity].
  - destruct (merge_profile m c') as [m'|]; [|reflexivity].
    cbn [rbind]. apply IH; assumption.
Qed.

(** A record without a description makes the rewriting loop raise. *)
Lemma rewrite_item_no_description cfg net item w :
  Dict.get item "description" = None ->
  rewrite_item cfg net item w = (Raise KeyError, w).
Proof.
  intros Hd. unfold rewrite_item, bind, lift. simpl getitem_str.
  rewrite Hd. reflexivity.
Qed.

(** C3. A profile fetch that succeeds with the empty array, or with a first
    element that lacks one of the six fields, makes the enricher raise
    ([IndexError], [KeyError]): the exception is not caught, [main] ends with
    it and output.csv is never opened. *)
Theorem update_with_profile_malformed_success_aborts :
  fst (update_with_profile Sample.net_empty_profile [Sample.instrument "ACME"]
         profile_url "K" [0]%nat world0) = Raise IndexError /\
  fst (update_with_profile
         (fun _ _ => Responded 200 (Some (VList [VDict [("currency", VStr "USD")]])))
         [Sample.instrument "ACME"] profile_url "K" [0]%nat world0)
  = Raise KeyError /\
  fst (main Sample.cfg_openai Sample.net_empty_profile Sample.one_candidate
         [0]%nat world0) = Raise IndexError /\
  output_csv (snd (main Sample.cfg_openai Sample.net_empty_profile
                     Sample.one_candidate [0]%nat world0)) = None.
Proof. repeat split; reflexivity. Qed.

(** C1. Two patterns of per-item failures under which [main] does not run
    to completion.  A candidate without a description whose profile fetch is
    answered 404 makes line 240 raise [KeyError]: no output is written.  Two
    enriched candidates of which the first rewrite fails and the second
    succeeds make the writer raise on the second row, whose
    [description-new] is not a column: only the header and the first row
    are written. *)
Theorem main_aborts_on_partial_failures :
  (fst (main Sample.cfg_openai Sample.net_404 Sample.one_candidate
          [0]%nat world0) = Raise KeyError /\
   output_csv (snd (main Sample.cfg_openai Sample.net_404 Sample.one_candidate
                      [0]%nat world0)) = None) /\
  (fst (main Sample.cfg_openai Sample.net_flaky Sample.two_candidates
          [0; 1]%nat world0) = Raise (ValueError FieldsNotInFieldnames) /\
   option_map (@List.length _)
     (output_csv (snd (main Sample.cfg_openai Sample.net_flaky
                         Sample.two_candidates [0; 1]%nat world0)))
   = Some 2%nat).
Proof. repeat split; reflexivity. Qed.

(** C2, as the specification states it, fails: with the backend "azure" the
    run does end with the invalid-backend error, but the bulk list call and
    the profile call have been issued by then. *)
Lemma invalid_backend_after_calls_counterexample :
  valid_backend Sample.cfg_azure = false /\
  ~ aborts_before_any_call Sample.cfg_azure Sample.net_ok
      Sample.one_candidate [0]%nat.
Proof.
  split; [reflexivity|].
  intros [_ Hcalls]. discriminate Hcalls.
Qed.

Section InvalidBackend.

Variable cfg : config.
Variable net : network.

Lemma rewrite_item_invalid_backend item d w :
  valid_backend cfg = false ->
  Dict.get item "description" = Some (VStr d) ->
  rewrite_item cfg net item w = (Raise (ValueError InvalidRewriteApi), w).
Proof.
  intros Hbad Hd.
  apply orb_false_iff in Hbad. destruct Hbad as [Hopenai Hcoze].
  unfold rewrite_item, bind, lift. simpl getitem_str. rewrite Hd.
  simpl add_str. cbv iota beta. rewrite Hopenai, Hcoze. reflexivity.
Qed.

(** C2, amended. When the configured backend is neither "openai" nor "coze"
    up to case, the bulk list was fetched, and the enricher returned a
    collection whose first record has a text description, [main] ends with
    the invalid-backend error at the first record: the calls issued are the
    bulk list call and one profile call per symbol, no rewrite call is
    issued and output.csv is not opened. *)
Theorem invalid_backend_aborts_at_first_rewrite :
  forall (data : value) (order : list nat) (w : world)
         (fd : list dict) (first : dict) (rest : list dict) (d : string),
    valid_backend cfg = false ->
    fst (get_available_traded cfg net w) = Ret tt ->
    filter_candidates data = Ret fd ->
    fst (update_with_profile net fd profile_url (api_key cfg) order
           (snd (get_available_traded cfg net w))) = Ret (first :: rest) ->
    Dict.get first "description" = Some (VStr d) ->
    fst (main cfg net data order w) = Raise (ValueError InvalidRewriteApi) /\
    output_csv (snd (main cfg net data order w)) = output_csv w /\
    exists dm,
      build_data_map [] fd = Ret dm /\
      calls (snd (main cfg net data order w))
      = (calls w
         ++ mkRequest GET (list_url cfg) [] VNone
            :: map (profile_request profile_url (api_key cfg))
                   (DataMap.keys dm))%list.
Proof.
  intros data order w fd first rest d Hbad Hlist Hfilter Hupd Hd.
  destruct (get_available_traded_world cfg net w) as [Hcalls Hcsv].
  unfold main, bind.
  destruct (get_available_traded cfg net w) as [r w1].
  simpl in Hlist, Hcalls, Hcsv, Hupd. subst r.
  unfold lift. rewrite Hfilter.
  rewrite update_with_profile_unfold in Hupd |- *.
  destruct (build_data_map [] fd) as [dm|e]; [|discriminate Hupd].
  cbv zeta in Hupd |- *.
  destruct (merge_all dm _) as [dm'|e]; [|discriminate Hupd].
  simpl in Hupd. injection Hupd as Hv. rewrite Hv.
  destruct (fold_log_call
              (map (profile_request profile_url (api_key cfg))
                   (DataMap.keys dm)) w1) as [Hc Ho].
  cbn [mapM]. unfold bind.
  rewrite (rewrite_item_invalid_backend first d _ Hbad Hd). simpl.
  rewrite Hc, Ho, Hcalls, Hcsv, <- app_assoc. simpl.
  split; [reflexivity|]. split; [reflexivity|].
  exists dm. split; reflexivity.
Qed.

End InvalidBackend.

Lemma invalid_backend_aborts_at_first_rewrite_witness :
  fst (main Sample.cfg_azure Sample.net_ok Sample.one_candidate [0]%nat world0)
  = Raise (ValueError InvalidRewriteApi) /\
  output_csv (snd (main Sample.cfg_azure Sample.net_ok Sample.one_candidate
                     [0]%nat world0)) = None.
Proof.
  destruct (invalid_backend_aborts_at_first_rewrite Sample.cfg_azure
              Sample.net_ok Sample.one_candidate [0]%nat world0
              [Sample.instrument "ACME"]
              (Dict.update (Sample.instrument "ACME")
                 [("currency", VStr "USD"); ("industry", VStr "Widgets");
                  ("sector", VStr "Industrials"); ("country", VStr "US");
                  ("image", VStr "acme.png");
                  ("description", VStr "Acme Corp makes widgets.")])
              [] "Acme Corp makes widgets."
              eq_refl eq_refl eq_refl eq_refl eq_refl) as (Hr & Ho & _).
  split; assumption.
Defined.

(** * Further properties *)

(** ** The request executor, other methods *)

Section ExecutorMore.

Variable net : network.

Lemma send_request_verb method func url headers json_data w :
  (PyStr.upper method = "GET" /\ func = GET) \/
  (PyStr.upper method = "POST" /\ func = POST) ->
  send_request net method url headers json_data w
  = (Ret (executor_answer
            (net (List.length (calls w))
                 (mkRequest func url headers json_data))),
     log_call w (mkRequest func url headers json_data)).
Proof.
  intros H. unfold send_request, bind, try_except, http_call, ret, raise,
              log_call.
  destruct H as [[-> ->]|[-> ->]]; simpl;
    destruct (net _ _) as [st [v|]|]; simpl; try reflexivity;
    destruct (st =? 200); reflexivity.
Qed.

(** X1. A method that is neither GET nor POST up to case makes
    [send_request] raise [ValueError] before the [try]: nothing is caught,
    no HTTP call is issued and the world is unchanged. *)
Theorem send_request_unsupported_method :
  forall (method url : string) headers json_data (w : world),
    PyStr.upper method <> "GET" ->
    PyStr.upper method <> "POST" ->
    send_request net method url headers json_data w
    = (Raise (ValueError (UnsupportedMethod method)), w).
Proof.
  intros method url headers json_data w Hg Hp.
  apply String.eqb_neq in Hg, Hp.
  unfold send_request, bind, raise. rewrite Hg, Hp. reflexivity.
Qed.

(** X2. The method is compared after [upper()]: a method written in any
    letter case behaves as its upper-case form does. *)
Theorem send_request_method_any_case :
  forall (method canonical url : string) headers json_data (w : world),
    canonical = "GET" \/ canonical = "POST" ->
    PyStr.upper method = canonical ->
    send_request net method url headers json_data w
    = send_request net canonical url headers json_data w.
Proof.
  intros method canonical url headers json_data w Hc Hm.
  destruct Hc as [-> | ->].
  - rewrite (send_request_verb method GET), (send_request_verb "GET" GET);
      auto.
  - rewrite (send_request_verb method POST), (send_request_verb "POST" POST);
      auto.
Qed.

Lemma send_request_files method url headers json_data w :
  files (snd (send_request net method url headers json_data w)) = files w.
Proof.
  unfold send_request, bind, try_except, http_call, ret, raise.
  destruct (String.eqb (PyStr.upper method) "GET");
    [|destruct (String.eqb (PyStr.upper method) "POST")]; simpl;
    try reflexivity;
    destruct (net _ _) as [st [v|]|]; simpl; try reflexivity;
    destruct (st =? 200); reflexivity.
Qed.

End ExecutorMore.

Lemma send_request_unsupported_method_witness :
  send_request Sample.net_ok "PUT" "https://fmpcloud.io/" [] VNone world0
  = (Raise (ValueError (UnsupportedMethod "PUT")), world0).
Proof.
  apply (send_request_unsupported_method Sample.net_ok "PUT"
           "https://fmpcloud.io/" [] VNone world0); discriminate.
Defined.

Lemma send_request_method_any_case_witness :
  send_request Sample.net_ok "Post" "https://fmpcloud.io/" [] VNone world0
  = send_request Sample.net_ok "POST" "https://fmpcloud.io/" [] VNone world0.
Proof.
  apply (send_request_method_any_case Sample.net_ok "Post" "POST"
           "https://fmpcloud.io/" [] VNone world0).
  - right. reflexivity.
  - reflexivity.
Defined.

(** ** The bulk list download *)

Section BulkList.

Variable cfg : config.
Variable net : network.

(** X3. [get_available_traded] does not look at the status: a response of
    any status whose body parses is written to list.json.  A transport
    failure or a body that does not parse is not caught: it ends [main]
    with that exception after this one call, whatever list-test.json holds,
    and neither file is written. *)
Theorem bulk_list_failure_aborts_main :
  forall (data : value) (order : list nat) (w : world),
    let o := net (List.length (calls w)) (bulk_request cfg) in
    (forall status body,
        o = Responded status (Some body) ->
        get_available_traded cfg net w
        = (Ret tt, mkWorld (calls w ++ [bulk_request cfg])%list (Some body)
                           (output_csv w))) /\
    (forall e,
        ((exists status, o = Responded status None) /\ e = JSONDecodeError) \/
        (o = TransportFailed /\ e = RequestException) ->
        main cfg net data order w = (Raise e, log_call w (bulk_request cfg))).
Proof.
  intros data order w o. split.
  - intros status body Ho.
    unfold get_available_traded, bind, http_call.
    fold (bulk_request cfg). fold o. rewrite Ho. reflexivity.
  - intros e He.
    unfold main, bind at 1. unfold get_available_traded, bind, http_call.
    fold (bulk_request cfg). fold o.
    destruct He as [[[status Ho] ->] | [Ho ->]]; rewrite Ho; reflexivity.
Qed.

End BulkList.

(** ** The two rewriters *)

Section Rewriters.

Variable net : network.

Lemma rewrite_with_coze_unfold atoken uid bid text w :
  rewrite_with_coze net atoken uid bid text w
  = (Ret (match executor_answer
                  (net (List.length (calls w))
                       (coze_request atoken uid bid text)) with
          | VNone => VNone
          | r => match messages_0_content r with
                 | Ret v => v
                 | Raise _ => VNone
                 end
          end),
     log_call w (coze_request atoken uid bid text)).
Proof.
  unfold rewrite_with_coze, bind. rewrite send_request_post.
  change (mkRequest POST coze_url (bearer atoken) _)
    with (coze_request atoken uid bid text).
  unfold try_except, lift, ret, messages_0_content.
  destruct (executor_answer _) as [| | | | |d]; try reflexivity.
  destruct (rbind (getitem_str (VDict d) "messages") _); reflexivity.
Qed.

Lemma rewrite_with_openai_unfold akey text w :
  rewrite_with_openai net akey text w
  = (Ret (match executor_answer
                  (net (List.length (calls w)) (openai_request akey text)) with
          | VNone => VNone
          | r => match rbind (choices_0_text r) py_strip with
                 | Ret s => VStr s
                 | Raise _ => VNone
                 end
          end),
     log_call w (openai_request akey text)).
Proof.
  unfold rewrite_with_openai, bind. rewrite send_request_post.
  change (mkRequest POST openai_url (bearer akey) _)
    with (openai_request akey text).
  unfold try_except, lift, ret, choices_0_text.
  destruct (executor_answer _) as [| | | | |d]; try reflexivity.
  destruct (getitem_str (VDict d) "choices") as [cs|]; [|reflexivity].
  cbn [rbind].
  destruct (getitem_0 cs) as [c|]; [|reflexivity].
  cbn [rbind].
  destruct (getitem_str c "text") as [t|]; [|reflexivity].
  cbn [rbind].
  destruct (py_strip t); reflexivity.
Qed.

(** X4. [rewrite_with_coze] issues one POST to the chat endpoint with the
    bearer header and the body of lines 153-159, and never raises.  On a 200
    response it returns [messages[0].content] as it is, of whatever type and
    without stripping; on any other status, a transport failure or a
    response without that field it returns [None]. *)
Theorem rewrite_with_coze_request_and_result :
  forall (atoken uid bid text : string) (w : world),
    let rq := coze_request atoken uid bid text in
    let o := net (List.length (calls w)) rq in
    let run := rewrite_with_coze net atoken uid bid text w in
    snd run = log_call w rq /\
    (exists v, fst run = Ret v) /\
    (forall response v,
        o = Responded 200 (Some response) ->
        messages_0_content response = Ret v ->
        fst run = Ret v) /\
    (forall response e,
        o = Responded 200 (Some response) ->
        messages_0_content response = Raise e ->
        fst run = Ret VNone) /\
    (executor_answer o = VNone -> fst run = Ret VNone).
Proof.
  intros atoken uid bid text w rq o run. subst run.
  rewrite rewrite_with_coze_unfold. fold rq. fold o. cbn [fst snd].
  split; [reflexivity|]. split; [eauto|]. split; [|split].
  - intros response v Ho Hv. rewrite Ho.
    change (executor_answer (Responded 200 (Some response))) with response.
    destruct response; try (rewrite Hv; reflexivity). discriminate Hv.
  - intros response e Ho He. rewrite Ho.
    change (executor_answer (Responded 200 (Some response))) with response.
    destruct response; try (rewrite He; reflexivity). reflexivity.
  - intros Ho. rewrite Ho. reflexivity.
Qed.

(** X5. [rewrite_with_openai] never raises and issues exactly one call.  Its
    result is [None] or a string that [strip] returned: [None] whenever the
    executor gave [None], and whenever [choices[0].text] of the response is
    missing or is not a string. *)
Theorem rewrite_with_openai_none_or_stripped :
  forall (akey text : string) (w : world),
    let rq := openai_request akey text in
    let o := net (List.length (calls w)) rq in
    let run := rewrite_with_openai net akey text w in
    snd run = log_call w rq /\
    (fst run = Ret VNone \/
     exists t, choices_0_text (executor_answer o) = Ret (VStr t) /\
               fst run = Ret (VStr (PyStr.strip t))) /\
    (executor_answer o = VNone -> fst run = Ret VNone) /\
    ((forall t, choices_0_text (executor_answer o) <> Ret (VStr t)) ->
     fst run = Ret VNone).
Proof.
  intros akey text w rq o run. subst run.
  rewrite rewrite_with_openai_unfold. fold rq. fold o. cbn [fst snd].
  split; [reflexivity|].
  assert (Hcases :
    (exists t, choices_0_text (executor_answer o) = Ret (VStr t)) \/
    (forall t, choices_0_text (executor_answer o) <> Ret (VStr t))).
  { destruct (choices_0_text (executor_answer o)) as [[| | |t| |]|];
      try (right; intros t' H; discriminate H).
    left. eauto. }
  assert (Hnone :
    (forall t, choices_0_text (executor_answer o) <> Ret (VStr t)) ->
    Ret (match executor_answer o with
         | VNone => VNone
         | r => match rbind (choices_0_text r) py_strip with
                | Ret s => VStr s
                | Raise _ => VNone
                end
         end) = Ret VNone).
  { intros Hn.
    destruct (choices_0_text (executor_answer o)) as [[| | |t| |]|] eqn:Hc;
      try (exfalso; apply (Hn t); reflexivity);
      destruct (executor_answer o); try reflexivity;
      rewrite Hc; reflexivity. }
  split; [|split].
  - destruct Hcases as [[t Ht]|Hn]; [|left; apply Hnone; exact Hn].
    right. exists t. split; [exact Ht|].
    destruct (executor_answer o); try discriminate Ht;
      rewrite Ht; reflexivity.
  - intros Ho. rewrite Ho. reflexivity.
  - exact Hnone.
Qed.

End Rewriters.

Lemma rewrite_with_coze_request_and_result_witness :
  fst (rewrite_with_coze
         (fun _ _ => Responded 200
            (Some (VDict [("messages",
                           VList [VDict [("content", VStr " Acme. ")]])])))
         "AT" "U" "B" "Acme Corp makes widgets." world0)
  = Ret (VStr " Acme. ").
Proof.
  apply (rewrite_with_coze_request_and_result
           (fun _ _ => Responded 200
              (Some (VDict [("messages",
                             VList [VDict [("content", VStr " Acme. ")]])])))
           "AT" "U" "B" "Acme Corp makes widgets." world0)
    with (response := VDict [("messages",
                              VList [VDict [("content", VStr " Acme. ")]])]);
    reflexivity.
Defined.

Lemma rewrite_with_openai_none_or_stripped_witness :
  fst (rewrite_with_openai Sample.net_404 "K" "Acme Corp makes widgets."
         (log_call world0 (bulk_request Sample.cfg_openai)))
  = Ret VNone.
Proof.
  destruct (rewrite_with_openai_none_or_stripped Sample.net_404 "K"
              "Acme Corp makes widgets."
              (log_call world0 (bulk_request Sample.cfg_openai)))
    as (_ & _ & Hnone & _).
  apply Hnone. reflexivity.
Defined.

(** ** The candidate filter on arbitrary input *)

Lemma is_candidate_ret (item : value) (b : bool) :
  is_candidate item = Ret b ->
  exists d, item = VDict d /\ b = Spec.candidate d.
Proof.
  destruct item as [| | | | |d]; try discriminate.
  intros H. exists d. split; [reflexivity|].
  unfold is_candidate, getitem_str, Spec.candidate in *.
  destruct (Dict.get d "type") as [[| | |t| |]|]; try discriminate H.
  cbn [rbind py_lower] in H.
  rewrite !matches_ci_lower by reflexivity.
  unfold in_strs at 1 in H. cbn [existsb eq_str] in H.
  rewrite orb_false_r in H.
  destruct (String.eqb (PyStr.lower t) "stock" || String.eqb (PyStr.lower t) "etf").
  - destruct (Dict.get d "exchangeShortName") as [e|]; [|discriminate H].
    cbn [rbind] in H. inversion H. unfold in_strs. simpl.
    rewrite orb_false_r. reflexivity.
  - inversion H. destruct (Dict.get d "exchangeShortName"); reflexivity.
Qed.

Lemma filter_items_ret (items : list value) (out : list dict) :
  filter_items items = Ret out ->
  exists ds, items = map VDict ds /\ out = filter Spec.candidate ds.
Proof.
  revert out. induction items as [|item items IH]; intros out;
    cbn [filter_items].
  - intros H. inversion H. exists []. auto.
  - destruct (is_candidate item) as [keep|] eqn:Hk; [|discriminate].
    cbn [rbind].
    destruct (is_candidate_ret _ _ Hk) as (d & -> & ->).
    cbn [as_dict rbind].
    destruct (filter_items items) as [rest|]; [|discriminate].
    cbn [rbind]. intros H. inversion H; subst out; clear H.
    destruct (IH rest eq_refl) as (ds & -> & ->).
    exists (d :: ds). split; reflexivity.
Qed.

(** X6. Whatever list-test.json holds, when the filter returns, every item
    it iterated over was an object, and the returned list is exactly the
    objects whose [type] is stock or etf up to case and whose
    [exchangeShortName] is AMEX or NASDAQ, in their order: an object whose
    type does not match is dropped even when it has no [exchangeShortName]. *)
Theorem filter_candidates_sound :
  forall (data : value) (out : list dict),
    filter_candidates data = Ret out ->
    exists ds,
      py_iter data = Ret (map VDict ds) /\
      out = filter Spec.candidate ds.
Proof.
  intros data out. unfold filter_candidates.
  destruct (py_iter data) as [items|]; [|discriminate].
  cbn [rbind]. intros H.
  destruct (filter_items_ret _ _ H) as (ds & -> & ->).
  exists ds. auto.
Qed.

Lemma filter_candidates_sound_witness :
  exists ds,
    py_iter (VList [VDict [("symbol", VStr "A"); ("type", VStr "fund")];
                    VDict (Sample.instrument "ACME")])
    = Ret (map VDict ds) /\
    [Sample.instrument "ACME"] = filter Spec.candidate ds.
Proof.
  apply (filter_candidates_sound
           (VList [VDict [("symbol", VStr "A"); ("type", VStr "fund")];
                   VDict (Sample.instrument "ACME")])
           [Sample.instrument "ACME"]).
  reflexivity.
Defined.

(** X7. The filter does not skip an item it cannot test: the first item
    that is not an object, lacks [type], has a [type] that is not a string,
    or matches and lacks [exchangeShortName] makes the whole comprehension
    raise that item's exception, and no list is returned. *)
Theorem filter_candidates_first_bad_item_raises :
  forall (data : value) (good rest : list value) (bad : value) (e : exn),
    py_iter data = Ret (good ++ bad :: rest)%list ->
    Forall (fun item => exists b, is_candidate item = Ret b) good ->
    is_candidate bad = Raise e ->
    filter_candidates data = Raise e.
Proof.
  intros data good rest bad e Hiter Hgood Hbad.
  unfold filter_candidates. rewrite Hiter. cbn [rbind]. clear Hiter.
  induction Hgood as [|item good [b Hb] _ IH]; cbn [app filter_items].
  - rewrite Hbad. reflexivity.
  - rewrite Hb. cbn [rbind].
    destruct (is_candidate_ret _ _ Hb) as (d & -> & _).
    cbn [as_dict rbind]. rewrite IH. reflexivity.
Qed.

Lemma filter_candidates_first_bad_item_raises_witness :
  filter_candidates
    (VList [VDict (Sample.instrument "ACME");
            VDict [("symbol", VStr "B"); ("type", VNone)];
            VDict (Sample.instrument "BOLT")])
  = Raise AttributeError.
Proof.
  apply (filter_candidates_first_bad_item_raises
           (VList [VDict (Sample.instrument "ACME");
                   VDict [("symbol", VStr "B"); ("type", VNone)];
                   VDict (Sample.instrument "BOLT")])
           [VDict (Sample.instrument "ACME")]
           [VDict (Sample.instrument "BOLT")]
           (VDict [("symbol", VStr "B"); ("type", VNone)])
           AttributeError).
  - reflexivity.
  - constructor; [exists true; reflexivity | constructor].
  - reflexivity.
Defined.

(** ** Dictionaries and the collection, further facts *)

Lemma dict_set_same_value d k v : Dict.get d k = Some v -> Dict.set d k v = d.
Proof.
  induction d as [|[a b] d IH]; simpl; [discriminate|].
  destruct (String.eqb a k) eqn:E.
  - intros H. inversion H. reflexivity.
  - intros H. f_equal. auto.
Qed.

Lemma dict_get_update_in u d f v :
  NoDup (map fst u) -> In (f, v) u -> Dict.get (Dict.update d u) f = Some v.
Proof.
  unfold Dict.update. revert d.
  induction u as [|[a b] u IH]; intros d Hnd Hin; [destruct Hin|].
  simpl in Hnd. inversion Hnd as [|x l Hnotin Hnd']; subst.
  simpl. destruct Hin as [H|H].
  - inversion H; subst.
    change (Dict.get (Dict.update (Dict.set d f v) u) f = Some v).
    rewrite dict_get_update_other by exact Hnotin.
    apply dict_get_set_same.
  - apply IH; assumption.
Qed.

Lemma dict_update_fixed u d :
  (forall f v, In (f, v) u -> Dict.get d f = Some v) -> Dict.update d u = d.
Proof.
  unfold Dict.update. induction u as [|[a b] u IH]; intros H; [reflexivity|].
  simpl. rewrite (dict_set_same_value d a b) by (apply H; left; reflexivity).
  apply IH. intros f v Hin. apply H. right. exact Hin.
Qed.

Lemma dict_update_idem u d :
  NoDup (map fst u) -> Dict.update (Dict.update d u) u = Dict.update d u.
Proof.
  intros Hnd. apply dict_update_fixed.
  intros f v Hin. apply dict_get_update_in; assumption.
Qed.

Lemma profile_fields_nodup : NoDup profile_fields.
Proof.
  unfold profile_fields.
  repeat (constructor;
          [simpl; intros H;
           repeat (destruct H as [H|H]; [discriminate H|]); exact H|]).
  constructor.
Qed.

Lemma profile_literal_nodup pd u :
  profile_literal pd profile_fields = Ret u -> NoDup (map fst u).
Proof.
  intros H. rewrite (profile_literal_keys _ _ _ H). apply profile_fields_nodup.
Qed.

Lemma profile_literal_fields pd fs u :
  profile_literal pd fs = Ret u ->
  forall f, In f fs -> exists v, profile_field pd f = Ret v /\ In (f, v) u.
Proof.
  unfold profile_field.
  revert u. induction fs as [|a fs IH]; intros u; cbn [profile_literal].
  - intros _ f [].
  - destruct (getitem_0 pd) as [first|] eqn:H0; cbn [rbind]; [|discriminate].
    destruct (getitem_str first a) as [x|] eqn:Ha; cbn [rbind]; [|discriminate].
    destruct (profile_literal pd fs) as [rest|]; cbn [rbind]; [|discriminate].
    intros H f Hf. inversion H; subst u; clear H.
    destruct Hf as [<-|Hf].
    + exists x. split; [exact Ha | left; reflexivity].
    + destruct (IH rest eq_refl f Hf) as (v & Hv & Hin).
      exists v. split; [exact Hv | right; exact Hin].
Qed.

Module DataMapMore.

Import DataMap.

Lemma set_set_same m k v1 v2 : set (set m k v1) k v2 = set m k v2.
Proof.
  induction m as [|[k' v'] m IH]; simpl.
  - replace (key_eqb k k) with true; [reflexivity|].
    symmetry. apply key_eqb_norm. reflexivity.
  - destruct (key_eqb k' k) eqn:E; simpl; rewrite E; [reflexivity|].
    f_equal. exact IH.
Qed.

Lemma set_absent m k v : ~ In (norm k) (kset m) -> set m k v = (m ++ [(k, v)])%list.
Proof.
  unfold kset, keys. induction m as [|[k' v'] m IH]; simpl; intros H.
  - reflexivity.
  - destruct (key_eqb k' k) eqn:E.
    + apply key_eqb_norm in E. exfalso. apply H. left. exact E.
    + f_equal. apply IH. tauto.
Qed.

Lemma nth_set_other m i ki r k v :
  nth_error m i = Some (ki, r) -> norm k <> norm ki ->
  nth_error (set m k v) i = Some (ki, r).
Proof.
  revert i. induction m as [|[k' v'] m IH]; intros i Hn Hne.
  - destruct i; discriminate Hn.
  - simpl. destruct (key_eqb k' k) eqn:E.
    + destruct i as [|i]; simpl in *; [|exact Hn].
      inversion Hn; subst. apply key_eqb_norm in E. congruence.
    + destruct i as [|i]; simpl in *; [exact Hn|]. apply IH; assumption.
Qed.

Lemma nth_kset m i k r :
  nth_error m i = Some (k, r) -> In (norm k) (kset m).
Proof.
  intros H. apply nth_error_In in H. unfold kset, keys.
  rewrite map_map. apply in_map_iff. exists (k, r). auto.
Qed.

Lemma nth_get m i k r k' :
  NoDup (kset m) -> nth_error m i = Some (k, r) -> norm k' = norm k ->
  get m k' = Some r.
Proof.
  revert i. induction m as [|[k0 v0] m IH]; intros i Hnd Hn E.
  - destruct i; discriminate Hn.
  - unfold kset, keys in Hnd. simpl in Hnd.
    inversion Hnd as [|x l Hnotin Hnd']; subst.
    simpl. destruct i as [|i]; simpl in Hn.
    + inversion Hn; subst.
      replace (key_eqb k k') with true; [reflexivity|].
      symmetry. apply key_eqb_norm. congruence.
    + destruct (key_eqb k0 k') eqn:E0.
      * apply key_eqb_norm in E0. exfalso. apply Hnotin.
        rewrite E0, E. apply (nth_kset m i k r Hn).
      * eapply IH; eassumption.
Qed.

Lemma nth_set_same m i k r k' v :
  NoDup (kset m) -> nth_error m i = Some (k, r) -> norm k' = norm k ->
  nth_error (set m k' v) i = Some (k, v).
Proof.
  revert i. induction m as [|[k0 v0] m IH]; intros i Hnd Hn E.
  - destruct i; discriminate Hn.
  - unfold kset, keys in Hnd. simpl in Hnd.
    inversion Hnd as [|x l Hnotin Hnd']; subst.
    simpl. destruct i as [|i]; simpl in Hn.
    + inversion Hn; subst.
      replace (key_eqb k k') with true; [reflexivity|].
      symmetry. apply key_eqb_norm. congruence.
    + destruct (key_eqb k0 k') eqn:E0.
      * apply key_eqb_norm in E0. exfalso. apply Hnotin.
        rewrite E0, E. apply (nth_kset m i k r Hn).
      * simpl. eapply IH; eassumption.
Qed.

End DataMapMore.

(** ** Building the collection *)

Lemma build_data_map_app l1 l2 acc :
  build_data_map acc (l1 ++ l2)
  = rbind (build_data_map acc l1) (fun a => build_data_map a l2).
Proof.
  revert acc. induction l1 as [|item l1 IH]; intros acc; [reflexivity|].
  cbn [app build_data_map].
  destruct (getitem_str (VDict item) "symbol") as [s|]; [|reflexivity].
  cbn [rbind]. destruct (to_key s) as [k|]; [|reflexivity].
  cbn [rbind]. apply IH.
Qed.

Lemma build_data_map_get_other l acc m k :
  build_data_map acc l = Ret m ->
  (forall d k', In d l -> symbol_key d = Ret k' -> norm k' <> norm k) ->
  DataMap.get m k = DataMap.get acc k.
Proof.
  revert acc. induction l as [|item l IH]; intros acc; cbn [build_data_map].
  - intros H _. inversion H. reflexivity.
  - intros H Hl.
    assert (Hitem := Hl item). unfold symbol_key in Hitem.
    destruct (getitem_str (VDict item) "symbol") as [s|]; [|discriminate].
    cbn [rbind] in *. destruct (to_key s) as [k'|]; [|discriminate].
    cbn [rbind] in *.
    rewrite (IH _ H) by (intros d k0 Hd; apply Hl; right; exact Hd).
    apply DataMapFacts.get_set_other.
    apply Hitem; [left; reflexivity | reflexivity].
Qed.

(** X8. Duplicate symbols: the collection holds, for a symbol, the last item
    of the input list that carries it (line 101 overwrites, it does not
    reject). *)
Theorem build_data_map_last_wins :
  forall (l1 l2 : list dict) (item : dict) (k : hkey) (dm : DataMap.t),
    build_data_map [] (l1 ++ item :: l2) = Ret dm ->
    symbol_key item = Ret k ->
    (forall d k', In d l2 -> symbol_key d = Ret k' -> norm k' <> norm k) ->
    DataMap.get dm k = Some item.
Proof.
  intros l1 l2 item k dm Hb Hk Hl2.
  rewrite build_data_map_app in Hb.
  destruct (build_data_map [] l1) as [acc|]; [|discriminate].
  cbn [rbind build_data_map] in Hb. unfold symbol_key in Hk.
  destruct (getitem_str (VDict item) "symbol") as [s|]; [|discriminate].
  cbn [rbind] in *. rewrite Hk in Hb. cbn [rbind] in Hb.
  rewrite (build_data_map_get_other _ _ _ _ Hb Hl2).
  apply DataMapFacts.get_set_same.
Qed.

Lemma build_data_map_last_wins_witness :
  DataMap.get
    [(HStr "ACME", [("symbol", VStr "ACME"); ("name", VStr "second")])]
    (HStr "ACME")
  = Some [("symbol", VStr "ACME"); ("name", VStr "second")].
Proof.
  apply (build_data_map_last_wins
           [[("symbol", VStr "ACME"); ("name", VStr "first")]] []
           [("symbol", VStr "ACME"); ("name", VStr "second")]
           (HStr "ACME")).
  - reflexivity.
  - reflexivity.
  - intros d k' [].
Defined.

Lemma build_data_map_distinct_from fd ks acc :
  Forall2 (fun d k => symbol_key d = Ret k) fd ks ->
  NoDup (kset acc ++ map norm ks) ->
  build_data_map acc fd = Ret (acc ++ combine ks fd)%list.
Proof.
  intros H. revert acc.
  induction H as [|d k fd ks Hk _ IH]; intros acc Hnd; cbn [build_data_map].
  - simpl. rewrite app_nil_r. reflexivity.
  - unfold symbol_key in Hk.
    destruct (getitem_str (VDict d) "symbol") as [s|]; [|discriminate].
    cbn [rbind] in *. rewrite Hk. cbn [rbind].
    assert (Habs : ~ In (norm k) (kset acc)).
    { intros Hin. simpl in Hnd. apply NoDup_remove_2 in Hnd.
      apply Hnd. apply in_or_app. left. exact Hin. }
    rewrite (DataMapMore.set_absent _ _ _ Habs).
    rewrite IH.
    + simpl. rewrite <- app_assoc. reflexivity.
    + unfold kset, DataMap.keys in *. rewrite !map_app. simpl.
      rewrite <- app_assoc. simpl. simpl in Hnd. exact Hnd.
Qed.

(** X9. When the symbols of the input items are pairwise different as
    dict keys, the collection is the input list itself: one entry per item,
    in the order of the list, under the item's own symbol. *)
Theorem build_data_map_distinct :
  forall (fd : list dict) (ks : list hkey),
    Forall2 (fun d k => symbol_key d = Ret k) fd ks ->
    NoDup (map norm ks) ->
    exists dm,
      build_data_map [] fd = Ret dm /\
      DataMap.keys dm = ks /\ DataMap.values dm = fd.
Proof.
  intros fd ks H Hnd. exists (combine ks fd).
  rewrite (build_data_map_distinct_from fd ks [] H Hnd).
  assert (Hlen : List.length fd = List.length ks)
    by (eapply Forall2_length; exact H).
  unfold DataMap.keys, DataMap.values.
  split; [reflexivity|]. clear H Hnd. revert ks Hlen.
  induction fd as [|d fd IH]; intros [|k ks] Hlen; try discriminate Hlen;
    [split; reflexivity|].
  simpl. injection Hlen as Hlen. destruct (IH ks Hlen) as [-> ->].
  split; reflexivity.
Qed.

Lemma build_data_map_distinct_witness :
  exists dm,
    build_data_map [] [Sample.instrument "ACME"; Sample.instrument "BOLT"]
    = Ret dm /\
    DataMap.keys dm = [HStr "ACME"; HStr "BOLT"] /\
    DataMap.values dm = [Sample.instrument "ACME"; Sample.instrument "BOLT"].
Proof.
  apply (build_data_map_distinct
           [Sample.instrument "ACME"; Sample.instrument "BOLT"]
           [HStr "ACME"; HStr "BOLT"]).
  - repeat constructor.
  - repeat constructor; simpl; intros H;
      repeat (destruct H as [H|H]; [discriminate H|]); exact H.
Defined.

(** ** The enricher, record by record *)

Section EnricherMore.

Import DataMap.

(** X10. Merging the same completed fetch a second time changes nothing:
    the six fields are overwritten with the values they already have. *)
Theorem merge_profile_idempotent :
  forall (m m1 : DataMap.t) (c : value * hkey),
    merge_profile m c = Ret m1 ->
    merge_profile m1 c = Ret m1.
Proof.
  intros m m1 [pd k]. destruct (value_none_dec pd) as [->|Hpd].
  - rewrite !merge_profile_none. intros H. inversion H. reflexivity.
  - rewrite !(merge_profile_some _ _ _ Hpd).
    destruct (get m k) as [item|] eqn:Hg; [|discriminate].
    destruct (profile_literal pd profile_fields) as [u|] eqn:Hu;
      cbn [rbind]; [|discriminate].
    intros H. inversion H; subst m1; clear H.
    rewrite DataMapFacts.get_set_same.
    rewrite (dict_update_idem u item (profile_literal_nodup _ _ Hu)).
    rewrite DataMapMore.set_set_same. reflexivity.
Qed.

Lemma same_static_refl r : same_static r r.
Proof. intros f _. reflexivity. Qed.

Lemma same_static_trans r1 r2 r3 :
  same_static r1 r2 -> same_static r2 r3 -> same_static r1 r3.
Proof.
  intros H12 H23 f Hf. rewrite (H23 f Hf). apply H12. exact Hf.
Qed.

Lemma same_static_update pd u r :
  profile_literal pd profile_fields = Ret u ->
  same_static r (Dict.update r u).
Proof.
  intros Hu f Hf. apply dict_get_update_other.
  rewrite (profile_literal_keys _ _ _ Hu). exact Hf.
Qed.

Lemma set_values_static m k item v :
  get m k = Some item -> same_static item v ->
  Forall2 same_static (values m) (values (set m k v)).
Proof.
  unfold values. induction m as [|[k' v'] m IH]; simpl; [discriminate|].
  destruct (key_eqb k' k); simpl; intros Hg Hs.
  - inversion Hg; subst. constructor; [exact Hs|].
    clear. induction m as [|[a b] m IH]; simpl; constructor;
      [apply same_static_refl | exact IH].
  - constructor; [apply same_static_refl | auto].
Qed.

Lemma forall2_static_refl l : Forall2 same_static l l.
Proof.
  induction l; constructor; [apply same_static_refl | assumption].
Qed.

Lemma forall2_static_trans l1 l2 l3 :
  Forall2 same_static l1 l2 -> Forall2 same_static l2 l3 ->
  Forall2 same_static l1 l3.
Proof.
  intros H12. revert l3. induction H12 as [|a b l1 l2 Hab _ IH]; intros l3 H23.
  - inversion H23. constructor.
  - inversion H23 as [|b' c l2' l3' Hbc H23']; subst.
    constructor; [eapply same_static_trans; eassumption | auto].
Qed.

Lemma merge_profile_static m c m' :
  merge_profile m c = Ret m' ->
  Forall2 same_static (values m) (values m').
Proof.
  destruct c as [pd k]. destruct (value_none_dec pd) as [->|Hpd].
  - rewrite merge_profile_none. intros H. inversion H.
    apply forall2_static_refl.
  - rewrite (merge_profile_some _ _ _ Hpd).
    destruct (get m k) as [item|] eqn:Hg; [|discriminate].
    destruct (profile_literal pd profile_fields) as [u|] eqn:Hu;
      cbn [rbind]; [|discriminate].
    intros H. inversion H; subst m'; clear H.
    apply (set_values_static _ _ _ _ Hg).
    eapply same_static_update. exact Hu.
Qed.

Lemma merge_all_static cs m m' :
  merge_all m cs = Ret m' ->
  keys m' = keys m /\ Forall2 same_static (values m) (values m').
Proof.
  revert m. induction cs as [|c cs IH]; intros m; cbn [merge_all].
  - intros H. inversion H. split; [reflexivity | apply forall2_static_refl].
  - destruct (merge_profile m c) as [m1|] eqn:H1; cbn [rbind]; [|discriminate].
    intros H. destruct (IH _ H) as [Hk Hs]. split.
    + rewrite Hk. eapply merge_profile_keys. exact H1.
    + eapply forall2_static_trans; [|exact Hs].
      eapply merge_profile_static. exact H1.
Qed.

Variable net : network.
Variables api_url akey : string.

(** X11. The calls the enricher issues are, up to their order, exactly one
    GET per entry of the collection, to the profile URL of the entry's
    symbol with the API key; this holds for every completion order and
    whether the merging returns or raises.  When the collection cannot be
    built no call is issued.  The files are not touched. *)
Theorem update_with_profile_calls :
  forall (fd : list dict) (order : list nat) (w : world),
    let run := update_with_profile net fd api_url akey order w in
    (forall dm,
        build_data_map [] fd = Ret dm ->
        exists issued,
          calls (snd run) = (calls w ++ issued)%list /\
          Permutation issued
            (map (profile_request api_url akey) (keys dm))) /\
    (forall e, build_data_map [] fd = Raise e -> run = (Raise e, w)) /\
    files (snd run) = files w.
Proof.
  intros fd order w run. subst run. rewrite update_with_profile_unfold.
  destruct (build_data_map [] fd) as [dm|e].
  - cbv zeta.
    destruct (fold_log_call (map (profile_request api_url akey) (keys dm)) w)
      as [Hc Ho].
    assert (Hl : forall rqs w0,
               list_json (fold_left log_call rqs w0) = list_json w0).
    { induction rqs as [|rq rqs IH]; intros w0; simpl; [reflexivity|].
      rewrite IH. reflexivity. }
    split; [|split].
    + intros dm0 H. inversion H; subst dm0.
      exists (map (profile_request api_url akey) (keys dm)).
      split; [|apply Permutation_refl].
      destruct (merge_all dm _); exact Hc.
    + intros e H. discriminate H.
    + destruct (merge_all dm _); cbn [snd]; unfold files;
        rewrite Ho, Hl; reflexivity.
  - split; [|split]; [intros dm H; discriminate H | | reflexivity].
    intros e0 H. inversion H. reflexivity.
Qed.

(** X12. The enricher writes the six profile fields only: the returned list
    has one record per entry of the collection, in its order, and each has
    every other field as it was. *)
Theorem update_with_profile_keeps_other_fields :
  forall (fd : list dict) (order : list nat) (w : world)
         (dm : DataMap.t) (out : list dict),
    build_data_map [] fd = Ret dm ->
    fst (update_with_profile net fd api_url akey order w) = Ret out ->
    Forall2 same_static (values dm) out.
Proof.
  intros fd order w dm out Hb. rewrite update_with_profile_unfold, Hb.
  cbv zeta. destruct (merge_all dm _) as [dm'|] eqn:Hm; [|discriminate].
  cbn [fst]. intros H. inversion H; subst out.
  apply (merge_all_static _ _ _ Hm).
Qed.

End EnricherMore.

Lemma merge_profile_idempotent_witness :
  merge_profile
    [(HStr "ACME",
      Dict.update (Sample.instrument "ACME")
        [("currency", VStr "USD"); ("industry", VStr "Widgets");
         ("sector", VStr "Industrials"); ("country", VStr "US");
         ("image", VStr "acme.png");
         ("description", VStr "Acme Corp makes widgets.")])]
    (Sample.profile, HStr "ACME")
  = Ret [(HStr "ACME",
          Dict.update (Sample.instrument "ACME")
            [("currency", VStr "USD"); ("industry", VStr "Widgets");
             ("sector", VStr "Industrials"); ("country", VStr "US");
             ("image", VStr "acme.png");
             ("description", VStr "Acme Corp makes widgets.")])].
Proof.
  apply (merge_profile_idempotent
           [(HStr "ACME", Sample.instrument "ACME")]).
  reflexivity.
Defined.

Lemma update_with_profile_keeps_other_fields_witness :
  Forall2 same_static
    [Sample.instrument "ACME"; Sample.instrument "BOLT"]
    [Sample.instrument "ACME";
     Dict.update (Sample.instrument "BOLT")
       [("currency", VStr "USD"); ("industry", VStr "Widgets");
        ("sector", VStr "Industrials"); ("country", VStr "US");
        ("image", VStr "acme.png");
        ("description", VStr "Acme Corp makes widgets.")]].
Proof.
  apply (update_with_profile_keeps_other_fields Sample.net_mixed profile_url
           "K" [Sample.instrument "ACME"; Sample.instrument "BOLT"]
           [1; 0]%nat world0
           [(HStr "ACME", Sample.instrument "ACME");
            (HStr "BOLT", Sample.instrument "BOLT")]);
    reflexivity.
Defined.

(** ** The record of one symbol through the merging loop *)

Section OneRecord.

Import DataMap.

Lemma merge_profile_nodup m c m' :
  merge_profile m c = Ret m' -> NoDup (kset m) -> NoDup (kset m').
Proof.
  intros H Hnd. rewrite (merge_profile_kset _ _ _ H). exact Hnd.
Qed.

(** The entry at one position after the loop, when the completions about
    its key are all the same completion [(pd, k)]. *)
Lemma merge_all_at cs :
  forall m m' i k r pd,
    NoDup (kset m) ->
    nth_error m i = Some (k, r) ->
    (forall c, In c cs -> norm (snd c) = norm k -> c = (pd, k)) ->
    merge_all m cs = Ret m' ->
    (nth_error m' i = Some (k, r) /\ (pd = VNone \/ ~ In (pd, k) cs)) \/
    (exists u, profile_literal pd profile_fields = Ret u /\
               nth_error m' i = Some (k, Dict.update r u) /\
               pd <> VNone /\ In (pd, k) cs).
Proof.
  induction cs as [|c cs IH]; intros m m' i k r pd Hnd Hn Hsame;
    cbn [merge_all].
  - intros H. inversion H; subst. left. split; [exact Hn|]. right. intros [].
  - destruct (merge_profile m c) as [m1|] eqn:H1; cbn [rbind]; [|discriminate].
    intros Hm.
    assert (Hnd1 := merge_profile_nodup _ _ _ H1 Hnd).
    assert (Hsame' : forall c0, In c0 cs -> norm (snd c0) = norm k ->
                                c0 = (pd, k))
      by (intros c0 Hc0; apply Hsame; right; exact Hc0).
    destruct (key_eqb (snd c) k) eqn:E.
    + (* the head is the completion about [k] *)
      apply key_eqb_norm in E.
      assert (Hc := Hsame c (or_introl eq_refl) E). subst c.
      destruct (value_none_dec pd) as [->|Hpd].
      * rewrite merge_profile_none in H1. inversion H1; subst m1.
        destruct (IH _ _ _ _ _ _ Hnd Hn Hsame' Hm)
          as [[Hr _]|(u & _ & _ & Hne & _)]; [|congruence].
        left. auto.
      * rewrite (merge_profile_some _ _ _ Hpd) in H1.
        rewrite (DataMapMore.nth_get _ _ _ _ _ Hnd Hn eq_refl) in H1.
        destruct (profile_literal pd profile_fields) as [u|] eqn:Hu;
          cbn [rbind] in H1; [|discriminate].
        inversion H1; subst m1; clear H1.
        assert (Hn1 := DataMapMore.nth_set_same _ _ _ _ k (Dict.update r u)
                         Hnd Hn eq_refl).
        right. exists u. split; [reflexivity|].
        split; [|split; [exact Hpd | left; reflexivity]].
        destruct (IH _ _ _ _ _ _ Hnd1 Hn1 Hsame' Hm)
          as [[Hr _]|(u' & Hu' & Hr & _)]; [exact Hr|].
        rewrite Hu in Hu'. inversion Hu'; subst u'.
        rewrite (dict_update_idem u r (profile_literal_nodup _ _ Hu)) in Hr.
        exact Hr.
    + (* the head is about another key *)
      apply key_eqb_false_norm in E.
      assert (Hn1 : nth_error m1 i = Some (k, r)).
      { destruct c as [pd' k']. cbn [snd] in E.
        destruct (value_none_dec pd') as [->|Hpd'].
        - rewrite merge_profile_none in H1. inversion H1; subst. exact Hn.
        - rewrite (merge_profile_some _ _ _ Hpd') in H1.
          destruct (get m k'); [|discriminate].
          destruct (profile_literal pd' profile_fields); cbn [rbind] in H1;
            [|discriminate].
          inversion H1; subst m1.
          apply DataMapMore.nth_set_other; assumption. }
      assert (Hhead : c <> (pd, k)) by (intros ->; apply E; reflexivity).
      destruct (IH _ _ _ _ _ _ Hnd1 Hn1 Hsame' Hm)
        as [[Hr Hcase]|(u & Hu & Hr & Hpd & Hin)].
      * left. split; [exact Hr|].
        destruct Hcase as [Hcase|Hcase]; [left; exact Hcase|].
        right. intros [Hin|Hin]; [exact (Hhead Hin) | exact (Hcase Hin)].
      * right. exists u. repeat split; auto. right. exact Hin.
Qed.

Variable net : network.
Variables api_url akey : string.

Lemma fetch_all_nth ks n i k :
  nth_error ks i = Some k ->
  nth_error (fetch_all net api_url akey ks n) i
  = Some (executor_answer (net (n + i)%nat (profile_request api_url akey k)),
          k).
Proof.
  revert n i. induction ks as [|k0 ks IH]; intros n i Hn.
  - destruct i; discriminate Hn.
  - destruct i as [|i]; simpl in *.
    + inversion Hn; subst. rewrite Nat.add_0_r. reflexivity.
    + rewrite (IH (S n) i Hn). rewrite Nat.add_succ_r. reflexivity.
Qed.

Lemma as_completed_in {A} (tasks : list A) order i t :
  nth_error tasks i = Some t -> In i order -> In t (as_completed tasks order).
Proof.
  intros Hn Hi. unfold as_completed. apply in_flat_map.
  exists i. split; [exact Hi|]. rewrite Hn. left. reflexivity.
Qed.

Lemma as_completed_index ks n order i c :
  NoDup (map norm ks) ->
  nth_error (fetch_all net api_url akey ks n) i = Some c ->
  In c (as_completed (fetch_all net api_url akey ks n) order) ->
  In i order.
Proof.
  intros Hnd Hi Hin. unfold as_completed in Hin. apply in_flat_map in Hin.
  destruct Hin as (j & Hj & Hc).
  destruct (nth_error (fetch_all net api_url akey ks n) j) as [t|] eqn:Hnj;
    [|destruct Hc].
  destruct Hc as [->|[]].
  assert (E : i = j).
  { assert (Hlen : (i < List.length (map norm ks))%nat).
    { rewrite length_map, <- (fetch_all_snd net api_url akey ks n), length_map.
      apply nth_error_Some. congruence. }
    apply (proj1 (NoDup_nth_error (map norm ks)) Hnd i j Hlen).
    rewrite <- (fetch_all_snd net api_url akey ks n), map_map.
    rewrite !nth_error_map, Hi, Hnj. reflexivity. }
  subst j. exact Hj.
Qed.

(** The state of one entry after the enricher returned. *)
Lemma update_with_profile_at fd order w dm out i k r :
  build_data_map [] fd = Ret dm ->
  fst (update_with_profile net fd api_url akey order w) = Ret out ->
  nth_error dm i = Some (k, r) ->
  let pd := executor_answer
              (net (List.length (calls w) + i)%nat
                   (profile_request api_url akey k)) in
  (nth_error out i = Some r /\ (pd = VNone \/ ~ In i order)) \/
  (exists u, profile_literal pd profile_fields = Ret u /\
             nth_error out i = Some (Dict.update r u) /\
             pd <> VNone /\ In i order).
Proof.
  intros Hb Hrun Hn pd.
  rewrite update_with_profile_unfold, Hb in Hrun. cbv zeta in Hrun.
  set (tasks := fetch_all net api_url akey (keys dm) (List.length (calls w)))
    in Hrun.
  destruct (merge_all dm (as_completed tasks order)) as [dm'|] eqn:Hm;
    [|discriminate].
  cbn [fst] in Hrun. inversion Hrun; subst out; clear Hrun.
  assert (Hnd : NoDup (kset dm))
    by (apply (build_data_map_nodup fd [] dm); [constructor | exact Hb]).
  assert (Hk : nth_error (keys dm) i = Some k).
  { unfold keys. rewrite nth_error_map, Hn. reflexivity. }
  assert (Ht : nth_error tasks i = Some (pd, k))
    by (apply fetch_all_nth; exact Hk).
  assert (Hsame : forall c, In c (as_completed tasks order) ->
                            norm (snd c) = norm k -> c = (pd, k)).
  { intros c Hc E. apply as_completed_incl in Hc.
    destruct (fetch_all_compatible net api_url akey (keys dm)
                (List.length (calls w)) Hnd c (pd, k) Hc
                (nth_error_In _ _ Ht)) as [Heq|Hne];
      [exact Heq | contradiction]. }
  assert (Hval : forall x, nth_error dm' i = Some (k, x) ->
                           nth_error (values dm') i = Some x).
  { intros x Hx. unfold values. rewrite nth_error_map, Hx. reflexivity. }
  destruct (merge_all_at _ _ _ _ _ _ _ Hnd Hn Hsame Hm)
    as [[Hr Hcase]|(u & Hu & Hr & Hpd & Hin)].
  - left. split; [apply Hval; exact Hr|].
    destruct Hcase as [Hcase|Hcase]; [left; exact Hcase|].
    right. intros Hi. apply Hcase. eapply as_completed_in; eassumption.
  - right. exists u. split; [exact Hu|]. split; [apply Hval; exact Hr|].
    split; [exact Hpd|].
    eapply as_completed_index; eassumption.
Qed.

(** X13. When the enricher returns, the record of a symbol whose fetch gave
    data and completed is, at its own position, the original record with the
    six fields set to those of the first element of its own response; every
    other field is as it was. *)
Theorem update_with_profile_enriched_record :
  forall (fd : list dict) (order : list nat) (w : world)
         (dm : DataMap.t) (out : list dict) (i : nat) (k : hkey) (r : dict),
    build_data_map [] fd = Ret dm ->
    fst (update_with_profile net fd api_url akey order w) = Ret out ->
    nth_error dm i = Some (k, r) ->
    In i order ->
    let pd := executor_answer
                (net (List.length (calls w) + i)%nat
                     (profile_request api_url akey k)) in
    pd <> VNone ->
    exists r',
      nth_error out i = Some r' /\
      same_static r r' /\
      forall f, In f profile_fields ->
                exists v, profile_field pd f = Ret v /\ Dict.get r' f = Some v.
Proof.
  intros fd order w dm out i k r Hb Hrun Hn Hi pd Hpd.
  destruct (update_with_profile_at _ _ _ _ _ _ _ _ Hb Hrun Hn)
    as [[_ [Hc|Hc]]|(u & Hu & Hr & _ & _)]; try contradiction.
  exists (Dict.update r u). split; [exact Hr|].
  split; [eapply same_static_update; exact Hu|].
  intros f Hf.
  destruct (profile_literal_fields _ _ _ Hu f Hf) as (v & Hv & Hin).
  exists v. split; [exact Hv|].
  apply dict_get_update_in; [eapply profile_literal_nodup; exact Hu | exact Hin].
Qed.

(** X14. When the enricher returns, the record of a symbol whose fetch
    failed (status other than 200, transport failure, unparsable body, or a
    body that is JSON null) is, at its own position, exactly the original
    record, whatever the other fetches gave. *)
Theorem update_with_profile_failed_record_unchanged :
  forall (fd : list dict) (order : list nat) (w : world)
         (dm : DataMap.t) (out : list dict) (i : nat) (k : hkey) (r : dict),
    build_data_map [] fd = Ret dm ->
    fst (update_with_profile net fd api_url akey order w) = Ret out ->
    nth_error dm i = Some (k, r) ->
    executor_answer (net (List.length (calls w) + i)%nat
                         (profile_request api_url akey k)) = VNone ->
    nth_error out i = Some r.
Proof.
  intros fd order w dm out i k r Hb Hrun Hn Hpd.
  destruct (update_with_profile_at _ _ _ _ _ _ _ _ Hb Hrun Hn)
    as [[Hr _]|(u & _ & _ & Hne & _)]; [exact Hr | contradiction].
Qed.

End OneRecord.

Lemma update_with_profile_enriched_record_witness :
  exists r',
    nth_error
      [Sample.instrument "ACME";
       Dict.update (Sample.instrument "BOLT")
         [("currency", VStr "USD"); ("industry", VStr "Widgets");
          ("sector", VStr "Industrials"); ("country", VStr "US");
          ("image", VStr "acme.png");
          ("description", VStr "Acme Corp makes widgets.")]] 1
    = Some r' /\
    same_static (Sample.instrument "BOLT") r' /\
    forall f, In f profile_fields ->
              exists v, profile_field Sample.profile f = Ret v /\
                        Dict.get r' f = Some v.
Proof.
  apply (update_with_profile_enriched_record Sample.net_mixed profile_url "K"
           [Sample.instrument "ACME"; Sample.instrument "BOLT"]
           [1; 0]%nat world0
           [(HStr "ACME", Sample.instrument "ACME");
            (HStr "BOLT", Sample.instrument "BOLT")]
           _ 1%nat (HStr "BOLT") (Sample.instrument "BOLT")).
  - reflexivity.
  - reflexivity.
  - reflexivity.
  - left. reflexivity.
  - discriminate.
Defined.

Lemma update_with_profile_failed_record_unchanged_witness :
  nth_error
    [Sample.instrument "ACME";
     Dict.update (Sample.instrument "BOLT")
       [("currency", VStr "USD"); ("industry", VStr "Widgets");
        ("sector", VStr "Industrials"); ("country", VStr "US");
        ("image", VStr "acme.png");
        ("description", VStr "Acme Corp makes widgets.")]] 0
  = Some (Sample.instrument "ACME").
Proof.
  apply (update_with_profile_failed_record_unchanged Sample.net_mixed
           profile_url "K"
           [Sample.instrument "ACME"; Sample.instrument "BOLT"]
           [1; 0]%nat world0
           [(HStr "ACME", Sample.instrument "ACME");
            (HStr "BOLT", Sample.instrument "BOLT")]
           _ 0%nat (HStr "ACME") (Sample.instrument "ACME"));
    reflexivity.
Defined.

(** ** The rewriting loop *)

Section RewriteLoop.

Variable cfg : config.
Variable net : network.

Lemma log_call_files w rq : files (log_call w rq) = files w.
Proof. reflexivity. Qed.

Lemma log_call_length w rq :
  List.length (calls (log_call w rq)) = S (List.length (calls w)).
Proof. simpl. rewrite length_app, Nat.add_1_r. reflexivity. Qed.

(** The two ways the body of the loop ends. *)
Lemma rewrite_item_outcome item w :
  (exists d v rq,
      Dict.get item "description" = Some (VStr d) /\
      valid_backend cfg = true /\
      rq_method rq = POST /\
      rewrite_item cfg net item w
      = (Ret (match v with
              | VNone => item
              | _ => Dict.set item "description-new" v
              end), log_call w rq)) \/
  (exists e,
      rewrite_item cfg net item w = (Raise e, w) /\
      ((Dict.get item "description" = None /\ e = KeyError) \/
       (exists v, Dict.get item "description" = Some v /\
                  (forall s, v <> VStr s) /\ e = TypeError) \/
       (valid_backend cfg = false /\ e = ValueError InvalidRewriteApi))).
Proof.
  unfold rewrite_item, valid_backend, bind, lift. simpl getitem_str.
  destruct (Dict.get item "description") as [v|] eqn:Hd.
  2:{ right. exists KeyError. split; [reflexivity|]. left. auto. }
  destruct v as [| | |d| |];
    try (right; exists TypeError; split; [reflexivity|];
         right; left; eexists; split; [reflexivity|];
         split; [intros s H; discriminate H | reflexivity]).
  simpl add_str. cbv iota beta.
  destruct (String.eqb (PyStr.lower (rewrite_api cfg)) "openai") eqn:Ho.
  - left.
    pose proof (rewrite_with_openai_unfold net (api_key cfg)
                  (d ++ main_prompt) w) as Hu.
    match type of Hu with
    | _ = (Ret ?x, _) => remember x as v eqn:Hv
    end.
    rewrite Hu. clear Hu Hv.
    exists d, v, (openai_request (api_key cfg) (d ++ main_prompt)).
    repeat (split; [reflexivity|]). destruct v; reflexivity.
  - destruct (String.eqb (PyStr.lower (rewrite_api cfg)) "coze") eqn:Hc.
    + left.
      pose proof (rewrite_with_coze_unfold net (access_token cfg)
                    (user_id cfg) (bot_id cfg) (d ++ main_prompt) w) as Hu.
      match type of Hu with
      | _ = (Ret ?x, _) => remember x as v eqn:Hv
      end.
      rewrite Hu. clear Hu Hv.
      exists d, v, (coze_request (access_token cfg) (user_id cfg)
                      (bot_id cfg) (d ++ main_prompt)).
      repeat (split; [reflexivity|]). destruct v; reflexivity.
    + right. exists (ValueError InvalidRewriteApi).
      split; [reflexivity|]. right. right. auto.
Qed.

(** X15. With a backend the dispatch knows and a text description, the
    body of the rewriting loop never raises and issues exactly one POST; it
    returns the item itself, or the item with [description-new] set to a
    value that is not [None]; no other field of the item changes. *)
Theorem rewrite_item_effects :
  forall (item : dict) (d : string) (w : world),
    valid_backend cfg = true ->
    Dict.get item "description" = Some (VStr d) ->
    exists item' rq,
      rewrite_item cfg net item w = (Ret item', log_call w rq) /\
      rq_method rq = POST /\
      (item' = item \/
       exists v, v <> VNone /\ item' = Dict.set item "description-new" v) /\
      forall f, f <> "description-new" -> Dict.get item' f = Dict.get item f.
Proof.
  intros item d w Hvalid Hd.
  destruct (rewrite_item_outcome item w)
    as [(d' & v & rq & _ & _ & Hpost & Hrun)
       |(e & _ & [[Hn _]|[(v & Hv & Hns & _)|[Hbad _]]])];
    try congruence.
  exists (match v with
          | VNone => item
          | _ => Dict.set item "description-new" v
          end), rq.
  split; [exact Hrun|]. split; [exact Hpost|]. split.
  - destruct v; try (right; eexists; split; [|reflexivity]; discriminate).
    left. reflexivity.
  - intros f Hf.
    destruct v; try reflexivity;
      apply dict_get_set_other; apply not_eq_sym; exact Hf.
Qed.

(** X16. The body of the rewriting loop raises for three reasons only: the
    item has no [description] ([KeyError]), its [description] is not a
    string, as a JSON null is ([TypeError]), or the backend is unknown
    ([ValueError]); in each case no HTTP call has been issued for the item. *)
Theorem rewrite_item_raise_cases :
  forall (item : dict) (w : world) (e : exn),
    fst (rewrite_item cfg net item w) = Raise e ->
    snd (rewrite_item cfg net item w) = w /\
    ((Dict.get item "description" = None /\ e = KeyError) \/
     (exists v, Dict.get item "description" = Some v /\
                (forall s, v <> VStr s) /\ e = TypeError) \/
     (valid_backend cfg = false /\ e = ValueError InvalidRewriteApi)).
Proof.
  intros item w e.
  destruct (rewrite_item_outcome item w)
    as [(d & v & rq & _ & _ & _ & Hrun)|(e' & Hrun & Hcases)];
    rewrite Hrun; cbn [fst snd]; intros H; [discriminate H|].
  inversion H; subst e'. auto.
Qed.

(** What the whole loop does to the world. *)
Lemma mapM_rewrite_item_world items w :
  files (snd (mapM (rewrite_item cfg net) items w)) = files w /\
  forall items',
    fst (mapM (rewrite_item cfg net) items w) = Ret items' ->
    List.length items' = List.length items /\
    List.length (calls (snd (mapM (rewrite_item cfg net) items w)))
    = (List.length (calls w) + List.length items)%nat.
Proof.
  revert w. induction items as [|item items IH]; intros w; cbn [mapM].
  - split; [reflexivity|]. intros items' H. inversion H. simpl. auto.
  - unfold bind.
    destruct (rewrite_item_outcome item w)
      as [(d & v & rq & _ & _ & _ & Hrun)|(e' & Hrun & _)]; rewrite Hrun.
    2:{ cbn [fst snd]. split; [reflexivity | intros ? H; discriminate H]. }
    destruct (IH (log_call w rq)) as [Hf Hret].
    destruct (mapM (rewrite_item cfg net) items (log_call w rq))
      as [[rest|e] w2]; cbn [fst snd] in *.
    + unfold ret. cbn [fst snd]. split; [exact Hf|].
      intros items' H. inversion H; subst items'.
      destruct (Hret rest eq_refl) as [Hl Hc].
      simpl. rewrite Hl, Hc, log_call_length. split; [reflexivity | lia].
    + split; [exact Hf | intros ? H; discriminate H].
Qed.

End RewriteLoop.

Lemma rewrite_item_effects_witness :
  exists item' rq,
    rewrite_item Sample.cfg_openai Sample.net_404
      [("symbol", VStr "ACME"); ("description", VStr "Acme.")]
      (log_call world0 (bulk_request Sample.cfg_openai))
    = (Ret item', log_call (log_call world0 (bulk_request Sample.cfg_openai)) rq)
    /\ rq_method rq = POST.
Proof.
  destruct (rewrite_item_effects Sample.cfg_openai Sample.net_404
              [("symbol", VStr "ACME"); ("description", VStr "Acme.")]
              "Acme." (log_call world0 (bulk_request Sample.cfg_openai))
              eq_refl eq_refl) as (item' & rq & Hrun & Hpost & _).
  exists item', rq. split; assumption.
Defined.

Lemma rewrite_item_raise_cases_witness :
  snd (rewrite_item Sample.cfg_openai Sample.net_ok
         [("symbol", VStr "ACME"); ("description", VNone)] world0)
  = world0.
Proof.
  apply (rewrite_item_raise_cases Sample.cfg_openai Sample.net_ok
           [("symbol", VStr "ACME"); ("description", VNone)] world0
           TypeError).
  reflexivity.
Defined.

(** ** Writing output.csv *)

Lemma row_fits_own_keys (row : dict) : row_fits (Dict.keys row) row = true.
Proof.
  unfold row_fits. apply forallb_forall. intros k Hk.
  apply existsb_exists. exists k. split; [exact Hk | apply String.eqb_refl].
Qed.

Lemma writerow_fits fieldnames row w :
  row_fits fieldnames row = true ->
  writerow fieldnames row w
  = (Ret tt, mkWorld (calls w) (list_json w)
                     (match output_csv w with
                      | Some ls => Some (ls ++ [row_cells fieldnames row])%list
                      | None => None
                      end)).
Proof.
  intros H. unfold writerow. fold (row_fits fieldnames row). rewrite H.
  reflexivity.
Qed.

Lemma writerow_misfit fieldnames row w :
  row_fits fieldnames row = false ->
  writerow fieldnames row w = (Raise (ValueError FieldsNotInFieldnames), w).
Proof.
  intros H. unfold writerow. fold (row_fits fieldnames row). rewrite H.
  reflexivity.
Qed.

(** The rows written by the loop of lines 261-262 into an open file. *)
Lemma mapM_writerow_outcome fieldnames rows :
  forall w ls,
    output_csv w = Some ls ->
    (Forall (fun r => row_fits fieldnames r = true) rows /\
     exists us,
       mapM (writerow fieldnames) rows w
       = (Ret us, with_output w (ls ++ map (row_cells fieldnames) rows)%list))
    \/
    (exists l1 bad l2,
        rows = (l1 ++ bad :: l2)%list /\
        Forall (fun r => row_fits fieldnames r = true) l1 /\
        row_fits fieldnames bad = false /\
        mapM (writerow fieldnames) rows w
        = (Raise (ValueError FieldsNotInFieldnames),
           with_output w (ls ++ map (row_cells fieldnames) l1)%list)).
Proof.
  induction rows as [|row rows IH]; intros w ls Hw; cbn [mapM].
  - left. split; [constructor|]. exists []. unfold ret, with_output.
    simpl. rewrite app_nil_r, <- Hw. destruct w; reflexivity.
  - unfold bind. destruct (row_fits fieldnames row) eqn:Hfit.
    + rewrite (writerow_fits _ _ _ Hfit), Hw.
      set (w1 := mkWorld (calls w) (list_json w)
                         (Some (ls ++ [row_cells fieldnames row])%list)).
      destruct (IH w1 (ls ++ [row_cells fieldnames row])%list eq_refl)
        as [[Hall [us Hrun]]|(l1 & bad & l2 & -> & Hl1 & Hbad & Hrun)];
        rewrite Hrun.
      * left. split; [constructor; assumption|].
        exists (tt :: us). unfold ret, with_output. simpl.
        rewrite <- app_assoc. reflexivity.
      * right. exists (row :: l1), bad, l2.
        split; [reflexivity|]. split; [constructor; assumption|].
        split; [exact Hbad|]. unfold with_output. simpl.
        rewrite <- app_assoc. reflexivity.
    + rewrite (writerow_misfit _ _ _ Hfit).
      right. exists [], row, rows.
      split; [reflexivity|]. split; [constructor|]. split; [exact Hfit|].
      unfold with_output. simpl. rewrite app_nil_r, <- Hw.
      destruct w; reflexivity.
Qed.

(** The two ways [write_csv] ends on a list that is not empty. *)
Lemma write_csv_outcome first rest w :
  let fieldnames := Dict.keys first in
  let header := map VStr fieldnames in
  (Forall (fun r => row_fits fieldnames r = true) rest /\
   write_csv (first :: rest) w
   = (Ret tt, with_output w (header :: map (row_cells fieldnames)
                                           (first :: rest)))) \/
  (exists l1 bad l2,
      rest = (l1 ++ bad :: l2)%list /\
      Forall (fun r => row_fits fieldnames r = true) l1 /\
      row_fits fieldnames bad = false /\
      write_csv (first :: rest) w
      = (Raise (ValueError FieldsNotInFieldnames),
         with_output w (header :: map (row_cells fieldnames) (first :: l1)))).
Proof.
  intros fieldnames header.
  unfold write_csv, bind, ret, open_output, write_line.
  cbn [calls list_json output_csv app].
  fold fieldnames. fold header.
  set (w1 := mkWorld (calls w) (list_json w) (Some [header])).
  destruct (mapM_writerow_outcome fieldnames (first :: rest) w1 [header]
              eq_refl)
    as [[Hall [us Hrun]]|(l1 & bad & l2 & Hsplit & Hl1 & Hbad & Hrun)];
    rewrite Hrun.
  - left. split; [inversion Hall; assumption | reflexivity].
  - right. destruct l1 as [|x l1].
    + simpl in Hsplit. inversion Hsplit; subst bad.
      unfold fieldnames in Hbad. rewrite row_fits_own_keys in Hbad.
      discriminate Hbad.
    + simpl in Hsplit. inversion Hsplit; subst x rest.
      exists l1, bad, l2. split; [reflexivity|].
      split; [inversion Hl1; assumption|]. split; [exact Hbad|].
      reflexivity.
Qed.

(** X17. When every record has its keys among those of the first record,
    [write_csv] replaces output.csv by the header, which is the first
    record's keys in their order, followed by one line per record in the
    order of the list; a column a record lacks is the empty string.
    Nothing else in the world changes. *)
Theorem write_csv_writes_all_rows :
  forall (first : dict) (rest : list dict) (w : world),
    Forall (fun r => row_fits (Dict.keys first) r = true) rest ->
    write_csv (first :: rest) w
    = (Ret tt,
       with_output w (map VStr (Dict.keys first)
                      :: map (row_cells (Dict.keys first)) (first :: rest))).
Proof.
  intros first rest w Hrest.
  destruct (write_csv_outcome first rest w)
    as [[_ Hrun]|(l1 & bad & l2 & -> & _ & Hbad & _)]; [exact Hrun|].
  rewrite Forall_forall in Hrest.
  rewrite Hrest in Hbad; [discriminate Hbad|].
  apply in_or_app. right. left. reflexivity.
Qed.

(** X18. The first record that has a key the first record lacks makes
    [write_csv] raise [ValueError]; output.csv then holds the header and the
    lines of the records before it, and the records after it are lost. *)
Theorem write_csv_ragged_row_raises :
  forall (first bad : dict) (l1 l2 : list dict) (w : world),
    Forall (fun r => row_fits (Dict.keys first) r = true) l1 ->
    row_fits (Dict.keys first) bad = false ->
    write_csv (first :: l1 ++ bad :: l2) w
    = (Raise (ValueError FieldsNotInFieldnames),
       with_output w (map VStr (Dict.keys first)
                      :: map (row_cells (Dict.keys first)) (first :: l1))).
Proof.
  intros first bad l1 l2 w Hl1 Hbad.
  destruct (write_csv_outcome first (l1 ++ bad :: l2) w)
    as [[Hall _]|(l1' & bad' & l2' & Hsplit & Hl1' & Hbad' & Hrun)].
  - rewrite Forall_forall in Hall.
    rewrite Hall in Hbad; [discriminate Hbad|].
    apply in_or_app. right. left. reflexivity.
  - assert (E : l1' = l1).
    { clear Hrun. revert l1' Hsplit Hl1'.
      induction Hl1 as [|x l1 Hx _ IH]; intros [|y l1'] Hsplit Hl1';
        simpl in Hsplit.
      - reflexivity.
      - inversion Hsplit; subst. inversion Hl1'; congruence.
      - inversion Hsplit; subst. congruence.
      - inversion Hsplit; subst. f_equal. apply IH; [assumption|].
        inversion Hl1'; assumption. }
    subst l1'. exact Hrun.
Qed.

Lemma write_csv_writes_all_rows_witness :
  write_csv [[("symbol", VStr "A"); ("name", VStr "a")]; [("symbol", VStr "B")]]
            world0
  = (Ret tt,
     with_output world0
       [[VStr "symbol"; VStr "name"];
        [VStr "A"; VStr "a"];
        [VStr "B"; VStr ""]]).
Proof.
  apply (write_csv_writes_all_rows
           [("symbol", VStr "A"); ("name", VStr "a")]
           [[("symbol", VStr "B")]] world0).
  repeat constructor.
Defined.

Lemma write_csv_ragged_row_raises_witness :
  write_csv [[("symbol", VStr "A")];
             [("symbol", VStr "B"); ("description", VStr "b")];
             [("symbol", VStr "C")]] world0
  = (Raise (ValueError FieldsNotInFieldnames),
     with_output world0 [[VStr "symbol"]; [VStr "A"]]).
Proof.
  apply (write_csv_ragged_row_raises
           [("symbol", VStr "A")]
           [("symbol", VStr "B"); ("description", VStr "b")]
           [] [[("symbol", VStr "C")]] world0).
  - constructor.
  - reflexivity.
Defined.

(** ** Whole runs *)

Section WholeRun.

Variable cfg : config.
Variable net : network.

Lemma fold_log_call_files rqs w : files (fold_left log_call rqs w) = files w.
Proof.
  revert w. induction rqs as [|rq rqs IH]; intros w; simpl; [reflexivity|].
  rewrite IH. reflexivity.
Qed.

Lemma update_with_profile_summary api_url akey fd order w :
  files (snd (update_with_profile net fd api_url akey order w)) = files w /\
  forall out,
    fst (update_with_profile net fd api_url akey order w) = Ret out ->
    exists dm,
      build_data_map [] fd = Ret dm /\
      List.length out = List.length dm /\
      List.length (calls (snd (update_with_profile net fd api_url akey order w)))
      = (List.length (calls w) + List.length dm)%nat.
Proof.
  rewrite update_with_profile_unfold.
  destruct (build_data_map [] fd) as [dm|e];
    [|split; [reflexivity | intros ? H; discriminate H]].
  cbv zeta.
  destruct (fold_log_call (map (profile_request api_url akey)
                               (DataMap.keys dm)) w) as [Hc _].
  destruct (merge_all dm _) as [dm'|e] eqn:Hm; cbn [fst snd];
    (split; [apply fold_log_call_files|]); intros out H; [|discriminate H].
  inversion H; subst out. exists dm. split; [reflexivity|].
  destruct (merge_all_static _ _ _ Hm) as [Hk _].
  split.
  - unfold DataMap.values. rewrite length_map.
    rewrite <- (length_map fst dm'), <- (length_map fst dm).
    unfold DataMap.keys in Hk. rewrite Hk. reflexivity.
  - rewrite Hc, length_app, length_map.
    unfold DataMap.keys. rewrite length_map. reflexivity.
Qed.

Lemma get_available_traded_summary w :
  output_csv (snd (get_available_traded cfg net w)) = output_csv w /\
  List.length (calls (snd (get_available_traded cfg net w)))
  = S (List.length (calls w)).
Proof.
  destruct (get_available_traded_world cfg net w) as [Hc Ho].
  split; [exact Ho|]. rewrite Hc, length_app, Nat.add_1_r. reflexivity.
Qed.

(** X19. output.csv is opened only after every rewrite has returned: when
    [main] ends with any exception other than the writer's [ValueError], the
    file is as it was before the run. *)
Theorem main_abort_leaves_output :
  forall (data : value) (order : list nat) (w : world) (e : exn),
    fst (main cfg net data order w) = Raise e ->
    e <> ValueError FieldsNotInFieldnames ->
    output_csv (snd (main cfg net data order w)) = output_csv w.
Proof.
  intros data order w e.
  destruct (get_available_traded_summary w) as [Ho1 _].
  unfold main, bind.
  destruct (get_available_traded cfg net w) as [[[]|e1] w1];
    cbn [fst snd] in *; [|intros; exact Ho1].
  unfold lift. destruct (filter_candidates data) as [fd|e2];
    cbn [fst snd]; [|intros; exact Ho1].
  destruct (update_with_profile_summary profile_url (api_key cfg) fd order w1)
    as [Hf2 _].
  destruct (update_with_profile net fd profile_url (api_key cfg) order w1)
    as [[out|e3] w2]; cbn [fst snd] in *;
    [|intros; inversion Hf2; congruence].
  destruct (mapM_rewrite_item_world cfg net out w2) as [Hf3 _].
  destruct (mapM (rewrite_item cfg net) out w2) as [[rows|e4] w3];
    cbn [fst snd] in *;
    [|intros; inversion Hf2; inversion Hf3; congruence].
  destruct rows as [|first rest].
  - cbn. intros _ _. inversion Hf2; inversion Hf3; congruence.
  - destruct (write_csv_outcome first rest w3)
      as [[_ Hrun]|(l1 & bad & l2 & _ & _ & _ & Hrun)]; rewrite Hrun;
      cbn [fst snd]; intros H Hne; [discriminate H|].
    inversion H; subst e. exfalso. apply Hne. reflexivity.
Qed.

(** X20. A run of [main] that completes has issued the bulk list call, one
    profile call and one rewrite call per distinct candidate symbol, and
    nothing else; output.csv holds the header and one line per distinct
    symbol.  It completes only with at least one candidate and a backend
    the dispatch knows. *)
Theorem main_completed_run :
  forall (data : value) (order : list nat) (w : world),
    fst (main cfg net data order w) = Ret tt ->
    exists fd dm lines,
      filter_candidates data = Ret fd /\
      build_data_map [] fd = Ret dm /\
      dm <> [] /\
      valid_backend cfg = true /\
      List.length (calls (snd (main cfg net data order w)))
      = (List.length (calls w) + 1 + 2 * List.length dm)%nat /\
      output_csv (snd (main cfg net data order w)) = Some lines /\
      List.length lines = S (List.length dm).
Proof.
  intros data order w.
  destruct (get_available_traded_summary w) as [_ Hc1].
  unfold main, bind.
  destruct (get_available_traded cfg net w) as [[[]|e1] w1];
    cbn [fst snd] in *; [|discriminate].
  unfold lift. destruct (filter_candidates data) as [fd|e2];
    cbn [fst snd]; [|discriminate].
  destruct (update_with_profile_summary profile_url (api_key cfg) fd order w1)
    as [_ Hs2].
  destruct (update_with_profile net fd profile_url (api_key cfg) order w1)
    as [[out|e3] w2]; cbn [fst snd] in *; [|discriminate].
  destruct (Hs2 out eq_refl) as (dm & Hb & Hlen & Hc2).
  destruct (mapM_rewrite_item_world cfg net out w2) as [_ Hs3].
  assert (Hvalid : forall rows,
             fst (mapM (rewrite_item cfg net) out w2) = Ret rows ->
             out <> [] -> valid_backend cfg = true).
  { intros rows Hrows Hne. destruct out as [|item out']; [congruence|].
    cbn [mapM] in Hrows. unfold bind in Hrows.
    destruct (rewrite_item_outcome cfg net item w2)
      as [(d & v & rq & _ & Hv & _)|(e' & Hrun & _)]; [exact Hv|].
    rewrite Hrun in Hrows. discriminate Hrows. }
  destruct (mapM (rewrite_item cfg net) out w2) as [[rows|e4] w3];
    cbn [fst snd] in *; [|discriminate].
  destruct (Hs3 rows eq_refl) as [Hlen3 Hc3].
  destruct rows as [|first rest]; [cbn; discriminate|].
  destruct (write_csv_outcome first rest w3)
    as [[_ Hrun]|(l1 & bad & l2 & _ & _ & _ & Hrun)]; rewrite Hrun;
    cbn [fst snd]; intros H; [|discriminate H].
  assert (Hout : out <> []) by (destruct out; [discriminate Hlen3 | discriminate]).
  exists fd, dm, (map VStr (Dict.keys first)
                  :: map (row_cells (Dict.keys first)) (first :: rest)).
  split; [reflexivity|]. split; [exact Hb|].
  split; [destruct dm; [destruct out; [congruence | discriminate Hlen]
                       | discriminate]|].
  split; [apply (Hvalid (first :: rest) eq_refl Hout)|].
  split; [|split; [reflexivity|]].
  - cbn [with_output calls]. rewrite Hc3, Hc2, Hc1, Hlen. lia.
  - cbn [List.length]. rewrite length_map. cbn [List.length] in Hlen3 |- *.
    congruence.
Qed.

(** X21. The whole run does not depend on the order in which the profile
    fetches complete: for two orders that are permutations of each other
    [main] completes in both or in neither, and ends in the same world (the
    same calls, the same list.json, the same output.csv). *)
Theorem main_order_independent :
  forall (data : value) (order1 order2 : list nat) (w : world),
    Permutation order1 order2 ->
    returned (fst (main cfg net data order1 w))
    = returned (fst (main cfg net data order2 w)) /\
    snd (main cfg net data order1 w) = snd (main cfg net data order2 w).
Proof.
  intros data order1 order2 w Hp.
  unfold main, bind.
  destruct (get_available_traded cfg net w) as [[[]|e1] w1];
    [|split; reflexivity].
  unfold lift. destruct (filter_candidates data) as [fd|e2];
    [|split; reflexivity].
  rewrite !update_with_profile_unfold.
  destruct (build_data_map [] fd) as [dm|e] eqn:Hb; [|split; reflexivity].
  cbv zeta.
  set (tasks := fetch_all net profile_url (api_key cfg) (DataMap.keys dm)
                  (List.length (calls w1))).
  assert (Hm : returned (merge_all dm (as_completed tasks order1))
               = returned (merge_all dm (as_completed tasks order2))).
  { apply merge_all_perm.
    - unfold as_completed. apply Permutation_flat_map. exact Hp.
    - apply compatible_incl with (cs := tasks).
      + apply as_completed_incl.
      + apply fetch_all_compatible.
        apply (build_data_map_nodup fd [] dm); [constructor | exact Hb]. }
  destruct (merge_all dm (as_completed tasks order1)) as [m1|],
           (merge_all dm (as_completed tasks order2)) as [m2|];
    cbn [returned] in Hm; try discriminate Hm; [|split; reflexivity].
  inversion Hm; subst m2. split; reflexivity.
Qed.

End WholeRun.

Lemma main_abort_leaves_output_witness :
  output_csv (snd (main Sample.cfg_azure Sample.net_ok Sample.one_candidate
                     [0]%nat world0))
  = None.
Proof.
  apply (main_abort_leaves_output Sample.cfg_azure Sample.net_ok
           Sample.one_candidate [0]%nat world0
           (ValueError InvalidRewriteApi)).
  - reflexivity.
  - discriminate.
Defined.

Lemma main_completed_run_witness :
  exists lines,
    output_csv (snd (main Sample.cfg_openai Sample.net_ok
                       Sample.two_candidates [1; 0]%nat world0)) = Some lines /\
    List.length lines = 3%nat.
Proof.
  destruct (main_completed_run Sample.cfg_openai Sample.net_ok
              Sample.two_candidates [1; 0]%nat world0 eq_refl)
    as (fd & dm & lines & Hfd & Hdm & _ & _ & _ & Hout & Hlen).
  exists lines. split; [exact Hout|].
  rewrite Hlen. f_equal.
  inversion Hfd; subst fd. inversion Hdm; subst dm. reflexivity.
Defined.

Lemma main_order_independent_witness :
  snd (main Sample.cfg_openai Sample.net_ok Sample.two_candidates
         [0; 1]%nat world0)
  = snd (main Sample.cfg_openai Sample.net_ok Sample.two_candidates
           [1; 0]%nat world0).
Proof.
  apply (main_order_independent Sample.cfg_openai Sample.net_ok
           Sample.two_candidates [0; 1]%nat [1; 0]%nat world0).
  apply perm_swap.
Defined.

(** ** Every fetch failing *)

Section AllFailed.

Variable net : network.
Variables api_url akey : string.

Lemma merge_all_failures cs m :
  (forall c, In c cs -> fst c = VNone) -> merge_all m cs = Ret m.
Proof.
  induction cs as [|[pd k] cs IH]; intros H; [reflexivity|].
  cbn [merge_all].
  assert (E : pd = VNone) by (apply (H (pd, k)); left; reflexivity).
  subst pd. rewrite merge_profile_none. cbn [rbind].
  apply IH. intros c Hc. apply H. right. exact Hc.
Qed.

Lemma fetch_all_failures ks n c :
  (forall i rq, executor_answer (net i rq) = VNone) ->
  In c (fetch_all net api_url akey ks n) -> fst c = VNone.
Proof.
  intros Hnet. revert n. induction ks as [|k ks IH]; intros n; simpl; [tauto|].
  intros [<-|Hc]; [apply Hnet | eapply IH; exact Hc].
Qed.

(** X22. When every profile fetch fails, the enricher still returns: its
    result is the collection as it was built, record for record, for every
    completion order. *)
Theorem update_with_profile_all_failed :
  forall (fd : list dict) (order : list nat) (w : world) (dm : DataMap.t),
    build_data_map [] fd = Ret dm ->
    (forall i rq, executor_answer (net i rq) = VNone) ->
    fst (update_with_profile net fd api_url akey order w)
    = Ret (DataMap.values dm).
Proof.
  intros fd order w dm Hb Hnet.
  rewrite update_with_profile_unfold, Hb. cbv zeta.
  rewrite merge_all_failures; [reflexivity|].
  intros c Hc. apply as_completed_incl in Hc.
  eapply fetch_all_failures; eassumption.
Qed.

End AllFailed.

Lemma update_with_profile_all_failed_witness :
  fst (update_with_profile (fun _ _ => TransportFailed)
         [Sample.instrument "ACME"; Sample.instrument "BOLT"]
         profile_url "K" [1; 0]%nat world0)
  = Ret [Sample.instrument "ACME"; Sample.instrument "BOLT"].
Proof.
  apply (update_with_profile_all_failed (fun _ _ => TransportFailed)
           profile_url "K"
           [Sample.instrument "ACME"; Sample.instrument "BOLT"]
           [1; 0]%nat world0
           [(HStr "ACME", Sample.instrument "ACME");
            (HStr "BOLT", Sample.instrument "BOLT")]);
    reflexivity.
Defined.

Lemma bulk_list_failure_aborts_main_witness :
  main Sample.cfg_openai (fun _ _ => TransportFailed) Sample.two_candidates
       [0; 1]%nat world0
  = (Raise RequestException, log_call world0 (bulk_request Sample.cfg_openai)).
Proof.
  apply (bulk_list_failure_aborts_main Sample.cfg_openai
           (fun _ _ => TransportFailed) Sample.two_candidates [0; 1]%nat
           world0).
  right. split; reflexivity.
Defined.

Lemma update_with_profile_calls_witness :
  exists issued,
    calls (snd (update_with_profile Sample.net_empty_profile
                  [Sample.instrument "ACME"; Sample.instrument "BOLT";
                   Sample.instrument "ACME"]
                  profile_url "K" [2; 0]%nat world0))
    = ([] ++ issued)%list /\
    Permutation issued
      [profile_request profile_url "K" (HStr "ACME");
       profile_request profile_url "K" (HStr "BOLT")].
Proof.
  destruct (update_with_profile_calls Sample.net_empty_profile profile_url "K"
              [Sample.instrument "ACME"; Sample.instrument "BOLT";
               Sample.instrument "ACME"]
              [2; 0]%nat world0) as (Hcalls & _ & _).
  apply (Hcalls [(HStr "ACME", Sample.instrument "ACME");
                 (HStr "BOLT", Sample.instrument "BOLT")]).
  reflexivity.
Defined.
